(** * guardarLectura: the HTTP handler of ProyectoRFID

    A shallow embedding of [ProyectoRFID/guardarLectura/__init__.py] and the
    properties of its request dispatch, identifier derivation and
    latest-reading query.

    Conventions of the embedding:
    - Python [str] values are byte strings (UTF-8); every character the
      handler inspects or substitutes is ASCII, so working on bytes agrees
      with working on code points.
    - Python exceptions are values of [exn]; a computation that may raise
      has type [result A].
    - The parsed request body is a [json] value; a Python [dict] is a
      [gmap string json].
    - The document store is reached through the interface [DocumentStore];
      [cosmos] is a list-backed model of it. *)

From Stdlib Require Import ZArith String Ascii SpecFloat.
From stdpp Require Import gmap strings list sorting.

Set Warnings "-register-all".
Set Default Proof Using "Type".

(** ** Exceptions and the [result] monad *)

Inductive exn : Type :=
  | ValueError
  | TypeError
  | AttributeError
  | KeyError (k : string)
  | RecursionError
  | CosmosResourceNotFoundError
  | CosmosResourceExistsError
  | CosmosHttpResponseError (status : Z)
  | OtherException.

Inductive result (A : Type) : Type :=
  | Ok (a : A)
  | Raise (e : exn).
Arguments Ok {A} a.
Arguments Raise {A} e.

#[global] Instance result_ret : MRet result := @Ok.
#[global] Instance result_bind : MBind result := λ A B f m,
  match m with
  | Ok a => f a
  | Raise e => Raise e
  end.

(** ** Python strings *)

(** [str.lower()] on the ASCII letters. The handler only compares the result
    with ["post"] and ["get"]; no non-ASCII code point lowers to one of
    their letters. *)
Definition ascii_lower (c : ascii) : ascii :=
  let n := nat_of_ascii c in
  if (65 <=? n)%nat && (n <=? 90)%nat then ascii_of_nat (n + 32) else c.

Fixpoint str_lower (s : string) : string :=
  match s with
  | EmptyString => EmptyString
  | String c s' => String (ascii_lower c) (str_lower s')
  end.

(** [s.replace(old, new)] for one-character [old] and [new], which is how
    every call site of the handler uses it. *)
Fixpoint str_replace (old new : ascii) (s : string) : string :=
  match s with
  | EmptyString => EmptyString
  | String c s' =>
      String (if Ascii.eqb c old then new else c) (str_replace old new s')
  end.

(** [s[:n]] *)
Fixpoint str_take (n : nat) (s : string) : string :=
  match n, s with
  | S n', String c s' => String c (str_take n' s')
  | _, _ => EmptyString
  end.

(** [sub in s] for two strings: substring search. *)
Fixpoint str_contains (sub s : string) : bool :=
  String.prefix sub s ||
  match s with
  | EmptyString => false
  | String _ s' => str_contains sub s'
  end.

(** ** JSON values, as [json.loads] builds them *)

Inductive json : Type :=
  | JNull
  | JBool (b : bool)
  | JInt (z : Z)
  | JFloat (x : spec_float)
  | JStr (s : string)
  | JArr (l : list json)
  | JObj (m : gmap string json).

Abbreviation document := (gmap string json).

(** [x == k] for a JSON value [x] and a string [k]. *)
Definition json_eq_str (x : json) (k : string) : bool :=
  match x with
  | JStr s => String.eqb s k
  | _ => false
  end.

(** [k in data]: key membership on a dict, substring search on a str,
    element search on a list, [TypeError] on anything else. *)
Definition py_in (k : string) (data : json) : result bool :=
  match data with
  | JObj m => Ok (bool_decide (is_Some (m !! k)))
  | JStr s => Ok (str_contains k s)
  | JArr l => Ok (existsb (λ x, json_eq_str x k) l)
  | JNull | JBool _ | JInt _ | JFloat _ => Raise TypeError
  end.

(** [data[k]] with a string subscript. *)
Definition py_getitem (data : json) (k : string) : result json :=
  match data with
  | JObj m =>
      match m !! k with
      | Some v => Ok v
      | None => Raise (KeyError k)
      end
  | _ => Raise TypeError
  end.

(** [data[k] = v] with a string subscript. *)
Definition py_setitem (data : json) (k : string) (v : json) : result json :=
  match data with
  | JObj m => Ok (JObj (<[k := v]> m))
  | _ => Raise TypeError
  end.

(** Looking up the method [replace] on a value: only [str] has it. *)
Definition str_method (v : json) : result string :=
  match v with
  | JStr s => Ok s
  | _ => Raise AttributeError
  end.

(** ** Step 2 of POST: the [id] of the document (lines 32 to 40) *)

Definition clean_uid (uid : string) : string :=
  str_replace "?" "_" (str_replace "#" "_"
    (str_replace "\" "_" (str_replace "/" "_" uid))).

Definition clean_timestamp (timestamp : string) : string :=
  str_replace "." "_" (str_replace ":" "-" (str_replace " " "_" timestamp)).

(** Lines 32 to 38, the [if]/[elif] statement. [uuid4] is [str(uuid.uuid4())],
    the text of the random UUID this invocation draws. *)
Definition derive_id (uuid4 : string) (data : json) : result json :=
  has_uid ← py_in "uid" data;
  has_both ← (if has_uid : bool then py_in "timestamp" data else Ok false);
  if has_both : bool then
    uid ← py_getitem data "uid" ≫= str_method;
    timestamp ← py_getitem data "timestamp" ≫= str_method;
    py_setitem data "id"
      (JStr (clean_uid uid +:+ "-" +:+ clean_timestamp timestamp
             +:+ "-" +:+ str_take 8 uuid4))
  else
    has_id ← py_in "id" data;
    if has_id : bool then Ok data else py_setitem data "id" (JStr uuid4).

(** Lines 32 to 40: the statement above, then the log line that reads
    [data['id']]. *)
Definition assign_id (uuid4 : string) (data : json) : result json :=
  data ← derive_id uuid4 data;
  _ ← py_getitem data "id";
  Ok data.

(** ** The document store

    [CosmosClient(endpoint, key)], [get_database_client] and
    [get_container_client] build proxies and touch no stored data. An
    exception raised while they are built would leave the [try] body
    through the same [except] clauses as one raised by the operation that
    follows, with nothing observable in between, so the embedding lets the
    operation on the container raise it. *)

Record cosmos_client : Type :=
  CosmosClient { client_url : string; client_credential : string }.

Record database_proxy : Type :=
  { database_client : cosmos_client; database_id : string }.

Record container_proxy : Type :=
  { container_database : database_proxy; container_id : string }.

Definition get_database_client (client : cosmos_client) (database : string)
  : database_proxy :=
  {| database_client := client; database_id := database |}.

Definition get_container_client (database : database_proxy)
    (container : string) : container_proxy :=
  {| container_database := database; container_id := container |}.

(** The two operations the handler calls on a container. A store is any
    state type [S] with these operations; they may raise any exception.
    [create_item] either raises and leaves the store as it was, or returns
    the store after the insertion. *)
Class DocumentStore (S : Type) : Type := {
  create_item : container_proxy → json → S → result S;
  query_items :
    container_proxy → string → ∀ enable_cross_partition_query : bool,
    S → result (list json)
}.

(** *** A list-backed model of the store

    The store is a service outside the repository; the model below follows
    what the spec says of it. An account is a map from database names to
    maps from container names to the documents of the container, in
    insertion order, those of all partitions in one list. The model
    checks no credentials and adds no system properties to the
    documents. *)

Record cosmos : Type :=
  Cosmos { databases : gmap string (gmap string (list document)) }.

Definition lookup_container (c : container_proxy) (st : cosmos)
  : result (list document) :=
  match databases st !! database_id (container_database c)
        ≫= (λ db, db !! container_id c) with
  | Some docs => Ok docs
  | None => Raise CosmosResourceNotFoundError
  end.

Definition store_container (c : container_proxy) (docs : list document)
    (st : cosmos) : cosmos :=
  let name := database_id (container_database c) in
  Cosmos (<[name := <[container_id c := docs]>
                      (default ∅ (databases st !! name))]> (databases st)).

Definition has_id (i : string) (doc : document) : bool :=
  match doc !! "id" with
  | Some x => json_eq_str x i
  | None => false
  end.

(** Modelled from the spec: the store's create-item operation, which is
    not part of the repository. The container must exist ("resource not
    found" otherwise), the [id] of the document is its key, and inserting
    an [id] the container already holds is a conflict. The model takes a
    key to be a string. *)
Definition cosmos_create_item (c : container_proxy) (body : json)
    (st : cosmos) : result cosmos :=
  docs ← lookup_container c st;
  match body with
  | JObj doc =>
      match doc !! "id" with
      | Some (JStr i) =>
          if existsb (has_id i) docs then Raise CosmosResourceExistsError
          else Ok (store_container c (docs ++ [doc]) st)
      | _ => Raise (CosmosHttpResponseError 400)
      end
  | _ => Raise TypeError
  end.

(** The order of ORDER BY: strings are compared lexicographically, as the
    spec says. Across types the model ranks a value by its type
    (undefined, null, booleans, numbers, strings, arrays, objects, in
    increasing order); it does not tell apart two values of one type
    other than string. *)
Definition type_rank (v : option json) : nat :=
  match v with
  | None => 0
  | Some JNull => 1
  | Some (JBool _) => 2
  | Some (JInt _) | Some (JFloat _) => 3
  | Some (JStr _) => 4
  | Some (JArr _) => 5
  | Some (JObj _) => 6
  end.

Definition order_by_le (a b : option json) : bool :=
  match a, b with
  | Some (JStr s), Some (JStr t) => String.leb s t
  | _, _ => (type_rank a <=? type_rank b)%nat
  end.

(** [d1] comes no later than [d2] under ORDER BY [field], descending or
    ascending. *)
Definition order_by (field : string) (descending : bool)
    (d1 d2 : document) : Prop :=
  (if descending then order_by_le (d2 !! field) (d1 !! field)
   else order_by_le (d1 !! field) (d2 !! field)) = true.

#[global] Instance order_by_dec field descending d1 d2 :
  Decision (order_by field descending d1 d2).
Proof. unfold order_by. apply _. Defined.

(** The words of a query text, split at spaces. *)
Fixpoint words_from (s word : string) : list string :=
  match s with
  | EmptyString => [word]
  | String c s' =>
      if Ascii.eqb c " " then word :: words_from s' EmptyString
      else words_from s' (word +:+ String c EmptyString)
  end.

Definition words (s : string) : list string :=
  List.filter (λ w, negb (String.eqb w "")) (words_from s "").

Fixpoint parse_digits (s : string) (acc : nat) : option nat :=
  match s with
  | EmptyString => Some acc
  | String c s' =>
      let n := nat_of_ascii c in
      if (48 <=? n)%nat && (n <=? 57)%nat
      then parse_digits s' (10 * acc + (n - 48))
      else None
  end.

Definition parse_nat (s : string) : option nat :=
  match s with
  | EmptyString => None
  | _ => parse_digits s 0
  end.

Fixpoint strip_prefix (p s : string) : option string :=
  match p, s with
  | EmptyString, _ => Some s
  | String a p', String b s' =>
      if Ascii.eqb a b then strip_prefix p' s' else None
  | String _ _, EmptyString => None
  end.

(** SELECT TOP [select_top] * FROM c ORDER BY c.[order_field], in the
    direction [order_descending]. *)
Record select_query : Type :=
  { select_top : nat; order_field : string; order_descending : bool }.

(** The query texts the model understands:
    SELECT TOP n * FROM alias ORDER BY alias.field ASC|DESC. *)
Definition parse_select (q : string) : option select_query :=
  match words q with
  | [w_select; w_top; n; star; w_from; alias; w_order; w_by; path; dir] =>
      if String.eqb w_select "SELECT" && String.eqb w_top "TOP"
         && String.eqb star "*" && String.eqb w_from "FROM"
         && String.eqb w_order "ORDER" && String.eqb w_by "BY"
      then
        top ← parse_nat n;
        field ← strip_prefix (alias +:+ ".") path;
        descending ← (if String.eqb dir "DESC" then Some true
                      else if String.eqb dir "ASC" then Some false
                      else None);
        Some {| select_top := top; order_field := field;
                order_descending := descending |}
      else None
  | _ => None
  end.

(** Line 87, the query text of the handler. *)
Definition query : string :=
  "SELECT TOP 1 * FROM c ORDER BY c.timestamp DESC".

(** Modelled from the spec: the store's evaluation of a query, which is
    not part of the repository. The container must exist. A query names
    no partition key, so the store answers it only when
    [enable_cross_partition_query] is set, and then scans the documents of
    all partitions. The store reads the query text it is sent: it sorts the
    documents by the field after ORDER BY, in the direction given, and
    returns the first TOP n of them. *)
Definition cosmos_query_items (c : container_proxy) (q : string)
    (enable_cross_partition_query : bool) (st : cosmos)
  : result (list json) :=
  docs ← lookup_container c st;
  if enable_cross_partition_query then
    match parse_select q with
    | Some sel =>
        Ok (JObj <$> take (select_top sel)
                       (merge_sort
                          (order_by (order_field sel) (order_descending sel))
                          docs))
    | None => Raise (CosmosHttpResponseError 400)
    end
  else Raise (CosmosHttpResponseError 400).

#[global] Instance cosmos_store : DocumentStore cosmos :=
  {| create_item := cosmos_create_item; query_items := cosmos_query_items |}.

(** ** The handler *)

Record HttpRequest : Type :=
  { method : string;
    (** [req.get_json()]: it returns the parsed body or raises.
        [ValueError] (with its subclasses) is what it raises on a body
        that is not JSON; the parser can raise others, such as
        [RecursionError] on a body nested too deep. *)
    get_json : result json }.

(** [func.HttpResponse(body, status_code=..., mimetype=...)]; [mimetype] is
    [None] where the handler passes none and the runtime's default
    (text/plain) applies. *)
Record HttpResponse : Type :=
  { body : string; status_code : Z; mimetype : option string }.

Definition environ_getitem (environ : gmap string string) (k : string)
  : result string :=
  match environ !! k with
  | Some v => Ok v
  | None => Raise (KeyError k)
  end.

(** Step 3 of POST and step 1 of GET, which the source spells out twice:
    the four configuration values, read in this order, then the proxies. *)
Definition container_from_environ (environ : gmap string string)
  : result container_proxy :=
  endpoint ← environ_getitem environ "COSMOS_ENDPOINT";
  key ← environ_getitem environ "COSMOS_KEY";
  database_name ← environ_getitem environ "COSMOS_DATABASE";
  container_name ← environ_getitem environ "COSMOS_CONTAINER";
  let client := CosmosClient endpoint key in
  let database := get_database_client client database_name in
  Ok (get_container_client database container_name).

Definition invalid_body_response : HttpResponse :=
  {| body := "Cuerpo inválido – envía un JSON válido";
     status_code := 400; mimetype := None |}.

Definition saved_response : HttpResponse :=
  {| body := "Lectura guardada correctamente.";
     status_code := 200; mimetype := None |}.

Definition no_readings_response : HttpResponse :=
  {| body := "No hay lecturas disponibles.";
     status_code := 404; mimetype := None |}.

Definition unsupported_method_response : HttpResponse :=
  {| body := "Método HTTP no soportado. Usa POST para guardar o GET para obtener la última lectura.";
     status_code := 405; mimetype := None |}.

Definition configuration_error_response : HttpResponse :=
  {| body := "Error de configuración de Cosmos DB.";
     status_code := 500; mimetype := None |}.

Definition internal_error_response : HttpResponse :=
  {| body := "Error interno del servidor.";
     status_code := 500; mimetype := None |}.

(** The two [except] clauses of the outer [try]. *)
Definition handle_exception (e : exn) : HttpResponse :=
  match e with
  | CosmosResourceNotFoundError => configuration_error_response
  | _ => internal_error_response
  end.

Section handler.
(** What an invocation finds around it: [json.dumps], [os.environ], the
    UUID that [uuid.uuid4()] draws, and the store. *)
Variable json_dumps : json → string.
Variable environ : gmap string string.
Variable uuid4 : string.
Context {S : Type} `{!DocumentStore S}.

Definition latest_response (latest_reading : json) : HttpResponse :=
  {| body := json_dumps latest_reading;
     status_code := 200; mimetype := Some "application/json" |}.

(** The body of the outer [try]. *)
Definition main_try (req : HttpRequest) (st : S)
  : result (HttpResponse * S) :=
  let http_method := str_lower (method req) in
  if String.eqb http_method "post" then
    match get_json req with
    | Raise ValueError => Ok (invalid_body_response, st)
    | Raise e => Raise e
    | Ok data =>
        data ← assign_id uuid4 data;
        container ← container_from_environ environ;
        st' ← create_item container data st;
        Ok (saved_response, st')
    end
  else if String.eqb http_method "get" then
    container ← container_from_environ environ;
    items ← query_items container query true st;
    match items with
    | [] => Ok (no_readings_response, st)
    | latest_reading :: _ => Ok (latest_response latest_reading, st)
    end
  else Ok (unsupported_method_response, st).

Definition main (req : HttpRequest) (st : S) : HttpResponse * S :=
  match main_try req st with
  | Ok r => r
  | Raise e => (handle_exception e, st)
  end.
End handler.

(** ** The sanitizing rules in the words of the spec

    The spec describes the two clean-ups as one substitution per character;
    the source chains [replace] calls. The two are compared below. *)

Fixpoint str_map (f : ascii → ascii) (s : string) : string :=
  match s with
  | EmptyString => EmptyString
  | String c s' => String (f c) (str_map f s')
  end.

(** each of [/], [\], [#], [?] becomes [_] *)
Definition sanitize_uid_char (c : ascii) : ascii :=
  if Ascii.eqb c "/" || Ascii.eqb c "\" || Ascii.eqb c "#" || Ascii.eqb c "?"
  then "_"%char else c.

(** each space and [.] becomes [_], each [:] becomes [-] *)
Definition sanitize_timestamp_char (c : ascii) : ascii :=
  if Ascii.eqb c " " || Ascii.eqb c "." then "_"%char
  else if Ascii.eqb c ":" then "-"%char else c.

Definition sanitize_uid : string → string := str_map sanitize_uid_char.
Definition sanitize_timestamp : string → string :=
  str_map sanitize_timestamp_char.

(** ** Sample data *)

Module Sample.

Definition environ : gmap string string :=
  <["COSMOS_ENDPOINT" := "https://rfid.documents.azure.com:443/"]>
  (<["COSMOS_KEY" := "c2VjcmV0"]>
  (<["COSMOS_DATABASE" := "paquetes"]>
  (<["COSMOS_CONTAINER" := "lecturas"]> ∅))).

Definition container : container_proxy :=
  get_container_client
    (get_database_client
       (CosmosClient "https://rfid.documents.azure.com:443/" "c2VjcmV0")
       "paquetes")
    "lecturas".

Definition account (docs : list document) : cosmos :=
  Cosmos {["paquetes" := {["lecturas" := docs]}]}.

Definition uuid4 : string := "3f2b8c1e-9d4a-4e7b-8a61-0c5d2e9f7b13".

Definition reading (i uid timestamp : string) : document :=
  <["id" := JStr i]> (<["uid" := JStr uid]>
  (<["timestamp" := JStr timestamp]> (<["rssi" := JInt (-61)]> ∅))).

Definition first : document := reading "r1" "04:A3:1B" "2024-01-01 00:00:00".
Definition second : document := reading "r2" "04:A3:1B" "2024-01-02 00:00:00".
Definition third : document := reading "r3" "7C/22#9" "2023-12-31 00:00:00".

(** a device payload, before it has an [id] *)
Definition payload : document :=
  <["uid" := JStr "7C/22#9?"]> (<["timestamp" := JStr "2024-01-02 10:15:30.5"]>
  (<["rssi" := JInt (-61)]> ∅)).

Definition post (data : json) : HttpRequest :=
  {| method := "POST"; get_json := Ok data |}.

(** A stand-in for [json.dumps] at the samples: it renders a document by
    its [id] and its [timestamp], which tells the sample documents
    apart. *)
Definition json_dumps (v : json) : string :=
  match v with
  | JObj doc =>
      match doc !! "id", doc !! "timestamp" with
      | Some (JStr i), Some (JStr t) => i +:+ " @ " +:+ t
      | Some (JStr i), _ => i
      | _, _ => "{}"
      end
  | JStr s => s
  | _ => "null"
  end.

(** an object with an [id] of its own and no [timestamp] *)
Definition labelled : document :=
  <["id" := JStr "manual-1"]> (<["uid" := JStr "04:A3:1B"]> ∅).

(** the payload as it is stored *)
Definition stored_payload : document :=
  <["id" := JStr "7C_22_9_-2024-01-02_10-15-30_5-3f2b8c1e"]> payload.

Definition unparsable : HttpRequest :=
  {| method := "post"; get_json := Raise ValueError |}.

Definition get : HttpRequest :=
  {| method := "GET"; get_json := Raise ValueError |}.

Definition put : HttpRequest :=
  {| method := "PUT"; get_json := Raise ValueError |}.

(** an account without the configured database *)
Definition no_database : cosmos := Cosmos ∅.

(** the configuration without its key *)
Definition no_key : gmap string string := delete "COSMOS_KEY" environ.

(** a second UUID text with the same first 8 characters *)
Definition uuid4_same_prefix : string :=
  "3f2b8c1e-0000-4000-8000-000000000000".

(** the payload with a number for [uid] *)
Definition numeric_uid : document := <["uid" := JInt 7]> payload.


(** an object with an [id] of its own and an array for [timestamp] *)
Definition array_timestamp : document :=
  <["id" := JStr "x"]> (<["timestamp" := JArr []]> ∅).

(** the list-backed store, refusing every insertion *)
Definition read_only_store : DocumentStore cosmos :=
  {| create_item := λ _ _ _, Raise (CosmosHttpResponseError 403);
     query_items := cosmos_query_items |}.

(** a GET that carries a body *)
Definition get_with_body : HttpRequest :=
  {| method := "GET"; get_json := Ok (JObj payload) |}.

(** the configuration among other variables *)
Definition environ_with_path : gmap string string :=
  <["PATH" := "/usr/bin"]> environ.

End Sample.

(** * Properties *)

(** ** Strings *)

Lemma str_replace_map old new s :
  str_replace old new s = str_map (λ c, if Ascii.eqb c old then new else c) s.
Proof. induction s as [|c s IH]; [done|]. cbn. by rewrite IH. Qed.

Lemma str_map_compose f g s : str_map f (str_map g s) = str_map (f ∘ g) s.
Proof. induction s as [|c s IH]; [done|]. cbn. by rewrite IH. Qed.

Lemma str_map_ext f g s : (∀ c, f c = g c) → str_map f s = str_map g s.
Proof. intros E. induction s as [|c s IH]; [done|]. cbn. by rewrite IH, E. Qed.

(** The chain of [replace] calls on [uid] is one pass that substitutes the
    four characters: no later call sees a character an earlier one wrote. *)
Lemma clean_uid_sanitize uid : clean_uid uid = sanitize_uid uid.
Proof.
  unfold clean_uid, sanitize_uid.
  rewrite !str_replace_map, !str_map_compose.
  apply str_map_ext. intros c. unfold sanitize_uid_char. cbn.
  destruct (Ascii.eqb_spec c "/") as [->|_]; [reflexivity|].
  destruct (Ascii.eqb_spec c "\") as [->|_]; [reflexivity|].
  destruct (Ascii.eqb_spec c "#") as [->|_]; [reflexivity|].
  destruct (Ascii.eqb_spec c "?") as [->|_]; reflexivity.
Qed.

(** The same for [timestamp]: the [-] written for a colon and the [_]
    written for a space are not touched by the calls that follow. *)
Lemma clean_timestamp_sanitize timestamp :
  clean_timestamp timestamp = sanitize_timestamp timestamp.
Proof.
  unfold clean_timestamp, sanitize_timestamp.
  rewrite !str_replace_map, !str_map_compose.
  apply str_map_ext. intros c. unfold sanitize_timestamp_char. cbn.
  destruct (Ascii.eqb_spec c " ") as [->|_]; [reflexivity|].
  destruct (Ascii.eqb_spec c ":") as [->|_]; [reflexivity|].
  destruct (Ascii.eqb_spec c ".") as [->|_]; reflexivity.
Qed.

(** ** The [id] of a document *)

Lemma py_in_object k (data : document) :
  py_in k (JObj data) = Ok (bool_decide (is_Some (data !! k))).
Proof. done. Qed.

Lemma py_in_object_Some k (data : document) v :
  data !! k = Some v → py_in k (JObj data) = Ok true.
Proof. intros E. rewrite py_in_object, E. by rewrite bool_decide_true. Qed.

Lemma py_in_object_None k (data : document) :
  data !! k = None → py_in k (JObj data) = Ok false.
Proof.
  intros E. rewrite py_in_object, E.
  rewrite bool_decide_false; [done|]. by intros [? ?].
Qed.

Lemma py_getitem_object k (data : document) v :
  data !! k = Some v → py_getitem (JObj data) k = Ok v.
Proof. intros E. cbn. by rewrite E. Qed.

Lemma py_getitem_insert k (data : document) v :
  py_getitem (JObj (<[k := v]> data)) k = Ok v.
Proof. apply py_getitem_object, lookup_insert_eq. Qed.

(** Unfolding the monad without touching the string functions. *)
Ltac run := cbn [mbind result_bind py_setitem str_method].

(** Line 32 for an object that lacks [uid] or [timestamp]. *)
Lemma has_both_false (data : document) :
  ¬ (is_Some (data !! "uid") ∧ is_Some (data !! "timestamp")) →
  (py_in "uid" (JObj data) ≫= λ has_uid : bool,
     if has_uid then py_in "timestamp" (JObj data) else Ok false) = Ok false.
Proof.
  intros Hn. rewrite !py_in_object. run.
  repeat case_bool_decide; naive_solver.
Qed.

Lemma derive_id_unfold uuid4 data :
  derive_id uuid4 data =
    (py_in "uid" data ≫= λ has_uid : bool,
       if has_uid then py_in "timestamp" data else Ok false) ≫= λ has_both : bool,
    if has_both then
      uid ← py_getitem data "uid" ≫= str_method;
      timestamp ← py_getitem data "timestamp" ≫= str_method;
      py_setitem data "id"
        (JStr (clean_uid uid +:+ "-" +:+ clean_timestamp timestamp
               +:+ "-" +:+ str_take 8 uuid4))
    else
      has_id ← py_in "id" data;
      if has_id : bool then Ok data else py_setitem data "id" (JStr uuid4).
Proof. unfold derive_id. by destruct (py_in "uid" data). Qed.

Lemma assign_id_both uuid4 (data : document) uid timestamp :
  data !! "uid" = Some (JStr uid) →
  data !! "timestamp" = Some (JStr timestamp) →
  assign_id uuid4 (JObj data) =
    Ok (JObj (<["id" := JStr (clean_uid uid +:+ "-" +:+
                              clean_timestamp timestamp +:+ "-" +:+
                              str_take 8 uuid4)]> data)).
Proof.
  intros Hu Ht. unfold assign_id, derive_id.
  rewrite (py_in_object_Some _ _ _ Hu), (py_in_object_Some _ _ _ Ht).
  rewrite (py_getitem_object _ _ _ Hu), (py_getitem_object _ _ _ Ht).
  run. by rewrite py_getitem_insert.
Qed.

Lemma assign_id_kept uuid4 (data : document) v :
  ¬ (is_Some (data !! "uid") ∧ is_Some (data !! "timestamp")) →
  data !! "id" = Some v →
  assign_id uuid4 (JObj data) = Ok (JObj data).
Proof.
  intros Hn Hi. unfold assign_id.
  rewrite derive_id_unfold, (has_both_false _ Hn). run.
  rewrite (py_in_object_Some _ _ _ Hi). run.
  by rewrite (py_getitem_object _ _ _ Hi).
Qed.

Lemma assign_id_generated uuid4 (data : document) :
  ¬ (is_Some (data !! "uid") ∧ is_Some (data !! "timestamp")) →
  data !! "id" = None →
  assign_id uuid4 (JObj data) = Ok (JObj (<["id" := JStr uuid4]> data)).
Proof.
  intros Hn Hi. unfold assign_id.
  rewrite derive_id_unfold, (has_both_false _ Hn). run.
  rewrite (py_in_object_None _ _ Hi). run.
  by rewrite py_getitem_insert.
Qed.

(** Whatever [assign_id] returns for an object is that object with [id] set
    to some value, and nothing else touched. *)
Lemma assign_id_object uuid4 (data : document) doc :
  assign_id uuid4 (JObj data) = Ok doc →
  ∃ v, doc = JObj (<["id" := v]> data).
Proof.
  destruct (decide (is_Some (data !! "uid") ∧ is_Some (data !! "timestamp")))
    as [[[u Hu] [t Ht]]|Hn].
  - unfold assign_id, derive_id.
    rewrite (py_in_object_Some _ _ _ Hu), (py_in_object_Some _ _ _ Ht).
    rewrite (py_getitem_object _ _ _ Hu), (py_getitem_object _ _ _ Ht). run.
    destruct u; run; try done. destruct t; run; try done.
    rewrite py_getitem_insert. intros [= <-]. by eexists.
  - destruct (data !! "id") as [v|] eqn:Hi.
    + rewrite (assign_id_kept _ _ _ Hn Hi). intros [= <-].
      exists v. by rewrite insert_id.
    + rewrite (assign_id_generated _ _ Hn Hi). intros [= <-]. by eexists.
Qed.

(** No value that is not an object gets through lines 32 to 40. *)
Lemma assign_id_non_object uuid4 data :
  (∀ m, data ≠ JObj m) → assign_id uuid4 data = Raise TypeError.
Proof.
  intros Hn. unfold assign_id, derive_id.
  destruct data as [| | | |s|l|m]; try done; [| |by destruct (Hn m)].
  - cbn [py_in]. run.
    destruct (str_contains "uid" s); run;
      [destruct (str_contains "timestamp" s)|]; run; try done;
      destruct (str_contains "id" s); reflexivity.
  - cbn [py_in]. run.
    destruct (existsb (λ x, json_eq_str x "uid") l); run;
      [destruct (existsb (λ x, json_eq_str x "timestamp") l)|]; run;
      try done; destruct (existsb (λ x, json_eq_str x "id") l); reflexivity.
Qed.

(** Lines 32 to 40 raise nothing but [TypeError] and [AttributeError]. *)
Lemma assign_id_raises uuid4 data e :
  assign_id uuid4 data = Raise e → e = TypeError ∨ e = AttributeError.
Proof.
  destruct data as [| | | |s|l|data];
    try (rewrite assign_id_non_object by done; intros [= <-]; by left).
  destruct (decide (is_Some (data !! "uid") ∧ is_Some (data !! "timestamp")))
    as [[[u Hu] [t Ht]]|Hn].
  - unfold assign_id, derive_id.
    rewrite (py_in_object_Some _ _ _ Hu), (py_in_object_Some _ _ _ Ht).
    rewrite (py_getitem_object _ _ _ Hu), (py_getitem_object _ _ _ Ht). run.
    destruct u; run; try (intros [= <-]; by right).
    destruct t; run; try (intros [= <-]; by right).
    by rewrite py_getitem_insert.
  - destruct (data !! "id") as [v|] eqn:Hi.
    + by rewrite (assign_id_kept _ _ _ Hn Hi).
    + by rewrite (assign_id_generated _ _ Hn Hi).
Qed.

(** ** The handler, branch by branch *)

Section handler_props.
Variable json_dumps : json → string.
Variable environ : gmap string string.
Variable uuid4 : string.
Context {S : Type} `{!DocumentStore S}.

(** What [main] answers once the steps before the store have run. *)
Lemma main_post req (st : S) data doc c :
  str_lower (method req) = "post" →
  get_json req = Ok data →
  assign_id uuid4 data = Ok doc →
  container_from_environ environ = Ok c →
  main json_dumps environ uuid4 req st =
    match create_item c doc st with
    | Ok st' => (saved_response, st')
    | Raise e => (handle_exception e, st)
    end.
Proof.
  intros Hm Hj Ha Hc. unfold main, main_try.
  rewrite Hm, Hj. cbn. rewrite Ha. cbn. rewrite Hc. cbn.
  by destruct (create_item c doc st).
Qed.

Lemma main_post_raise_id req (st : S) data e :
  str_lower (method req) = "post" →
  get_json req = Ok data →
  assign_id uuid4 data = Raise e →
  main json_dumps environ uuid4 req st = (handle_exception e, st).
Proof.
  intros Hm Hj Ha. unfold main, main_try.
  rewrite Hm, Hj. cbn. by rewrite Ha.
Qed.

Lemma main_post_raise_config req (st : S) data doc e :
  str_lower (method req) = "post" →
  get_json req = Ok data →
  assign_id uuid4 data = Ok doc →
  container_from_environ environ = Raise e →
  main json_dumps environ uuid4 req st = (handle_exception e, st).
Proof.
  intros Hm Hj Ha Hc. unfold main, main_try.
  rewrite Hm, Hj. cbn. rewrite Ha. cbn. by rewrite Hc.
Qed.

Lemma main_get req (st : S) c :
  str_lower (method req) = "get" →
  container_from_environ environ = Ok c →
  main json_dumps environ uuid4 req st =
    match query_items c query true st with
    | Ok [] => (no_readings_response, st)
    | Ok (latest_reading :: _) => (latest_response json_dumps latest_reading, st)
    | Raise e => (handle_exception e, st)
    end.
Proof.
  intros Hm Hc. unfold main, main_try.
  rewrite Hm. cbn. rewrite Hc. cbn.
  by destruct (query_items c query true st) as [[|]|].
Qed.

Lemma main_get_raise_config req (st : S) e :
  str_lower (method req) = "get" →
  container_from_environ environ = Raise e →
  main json_dumps environ uuid4 req st = (handle_exception e, st).
Proof.
  intros Hm Hc. unfold main, main_try.
  rewrite Hm. cbn. by rewrite Hc.
Qed.

(** ** POST *)

(** C1. A POST whose body is an object with a string [uid] and a string
    [timestamp] gets the [id] made of the sanitized uid, the sanitized
    timestamp and the first 8 characters of the UUID text, joined by [-];
    an [id] of the input is overwritten, and the document handed to
    [create_item] is the one with that [id]. The sanitizers are the
    per-character substitutions of the spec. *)
Theorem post_id_from_uid_and_timestamp
    req (st : S) (data : document) uid timestamp :
  str_lower (method req) = "post" →
  get_json req = Ok (JObj data) →
  data !! "uid" = Some (JStr uid) →
  data !! "timestamp" = Some (JStr timestamp) →
  let new_id :=
    sanitize_uid uid +:+ "-" +:+ sanitize_timestamp timestamp
      +:+ "-" +:+ str_take 8 uuid4 in
  assign_id uuid4 (JObj data) = Ok (JObj (<["id" := JStr new_id]> data)) ∧
  (<["id" := JStr new_id]> data) !! "id" = Some (JStr new_id) ∧
  ∀ c, container_from_environ environ = Ok c →
    main json_dumps environ uuid4 req st =
      match create_item c (JObj (<["id" := JStr new_id]> data)) st with
      | Ok st' => (saved_response, st')
      | Raise e => (handle_exception e, st)
      end.
Proof.
  intros Hm Hj Hu Ht new_id.
  assert (assign_id uuid4 (JObj data)
          = Ok (JObj (<["id" := JStr new_id]> data))) as Ha.
  { rewrite (assign_id_both _ _ _ _ Hu Ht).
    by rewrite clean_uid_sanitize, clean_timestamp_sanitize. }
  split; [done|]. split; [apply lookup_insert_eq|].
  intros c Hc. by apply main_post with (data := JObj data).
Qed.

(** C3. A POST whose body is an object without both [uid] and [timestamp]
    keeps the [id] it has, and otherwise gets the whole UUID text as
    [id]; that document is the one handed to [create_item]. *)
Theorem post_id_kept_or_generated req (st : S) (data : document) :
  str_lower (method req) = "post" →
  get_json req = Ok (JObj data) →
  ¬ (is_Some (data !! "uid") ∧ is_Some (data !! "timestamp")) →
  (∀ v, data !! "id" = Some v →
     assign_id uuid4 (JObj data) = Ok (JObj data)) ∧
  (data !! "id" = None →
     assign_id uuid4 (JObj data) = Ok (JObj (<["id" := JStr uuid4]> data))) ∧
  ∀ c doc, container_from_environ environ = Ok c →
    assign_id uuid4 (JObj data) = Ok doc →
    main json_dumps environ uuid4 req st =
      match create_item c doc st with
      | Ok st' => (saved_response, st')
      | Raise e => (handle_exception e, st)
      end.
Proof.
  intros Hm Hj Hn. split; [|split].
  - intros v Hi. by apply assign_id_kept with (v := v).
  - intros Hi. by apply assign_id_generated.
  - intros c doc Hc Ha. by apply main_post with (data := JObj data).
Qed.


(** C7. On a POST whose body is an object, either nothing is inserted, or
    the one document handed to [create_item] is the input with [id] set:
    every other key has the value it had, and no key but [id] is new. *)
Theorem post_stores_payload_with_id req (st : S) (data : document) :
  str_lower (method req) = "post" →
  get_json req = Ok (JObj data) →
  let r := main json_dumps environ uuid4 req st in
  (r.2 = st ∧ r.1 ≠ saved_response) ∨
  (∃ v c,
     container_from_environ environ = Ok c ∧
     create_item c (JObj (<["id" := v]> data)) st = Ok r.2 ∧
     r.1 = saved_response ∧
     (∀ k, k ≠ "id" → (<["id" := v]> data) !! k = data !! k) ∧
     dom (<["id" := v]> data) = {["id"]} ∪ dom data).
Proof.
  intros Hm Hj r. subst r.
  destruct (assign_id uuid4 (JObj data)) as [doc|e] eqn:Ha.
  2:{ left. rewrite (main_post_raise_id _ _ _ _ Hm Hj Ha).
      by destruct e. }
  destruct (container_from_environ environ) as [c|e] eqn:Hc.
  2:{ left. rewrite (main_post_raise_config _ _ _ _ _ Hm Hj Ha Hc).
      by destruct e. }
  rewrite (main_post _ _ _ _ _ Hm Hj Ha Hc).
  destruct (assign_id_object _ _ _ Ha) as [v ->].
  destruct (create_item c _ st) as [st'|e] eqn:Hi.
  - right. exists v, c. repeat split; try done.
    + intros k Hk. by rewrite lookup_insert_ne.
    + by rewrite dom_insert_L.
  - left. by destruct e.
Qed.

(** C10, as amended. A POST whose body is JSON but not an object never gets
    past lines 32 to 40: they raise [TypeError], the catch-all answers 500
    with the generic text (not 400), and the store is left as it was. *)
Theorem post_non_object req (st : S) data :
  str_lower (method req) = "post" →
  get_json req = Ok data →
  (∀ m, data ≠ JObj m) →
  assign_id uuid4 data = Raise TypeError ∧
  main json_dumps environ uuid4 req st =
    ({| body := "Error interno del servidor.";
        status_code := 500; mimetype := None |}, st).
Proof.
  intros Hm Hj Hn.
  pose proof (assign_id_non_object uuid4 data Hn) as Ha.
  split; [done|]. by rewrite (main_post_raise_id _ _ _ _ Hm Hj Ha).
Qed.

(** ** Other methods, and the outer [except] clauses *)

(** C6. A method that lowers to neither ["post"] nor ["get"] is answered
    405 with a text that names POST and GET; the handler sees the method
    only through [str_lower], so any spelling of a method is handled as
    its lower-case form is. *)
Theorem method_dispatch req (st : S) :
  (str_lower (method req) ≠ "post" → str_lower (method req) ≠ "get" →
   main json_dumps environ uuid4 req st =
     ({| body := "Método HTTP no soportado. Usa POST para guardar o GET para obtener la última lectura.";
         status_code := 405; mimetype := None |}, st)) ∧
  (str_contains "POST" (body unsupported_method_response) = true ∧
   str_contains "GET" (body unsupported_method_response) = true) ∧
  (∀ req', str_lower (method req') = str_lower (method req) →
     get_json req' = get_json req →
     main json_dumps environ uuid4 req' st =
       main json_dumps environ uuid4 req st) ∧
  (str_lower "post" = "post" ∧ str_lower "Post" = "post" ∧
   str_lower "POST" = "post" ∧ str_lower "get" = "get" ∧
   str_lower "Get" = "get" ∧ str_lower "GET" = "get").
Proof.
  split; [|split; [|split]].
  - intros Hp Hg. unfold main, main_try.
    apply String.eqb_neq in Hp, Hg. by rewrite Hp, Hg.
  - by vm_compute.
  - intros req' Hm Hj. unfold main, main_try. by rewrite Hm, Hj.
  - by vm_compute.
Qed.

(** C8. When [create_item] (on POST) or [query_items] (on GET) raises the
    store's resource-not-found error, the answer is 500 with the
    configuration text; any other exception that leaves the [try] body
    gets the generic text, which is a different one. *)
Theorem resource_not_found_is_configuration_error req (st : S) :
  (∀ data doc c,
     str_lower (method req) = "post" →
     get_json req = Ok data →
     assign_id uuid4 data = Ok doc →
     container_from_environ environ = Ok c →
     create_item c doc st = Raise CosmosResourceNotFoundError →
     main json_dumps environ uuid4 req st =
       ({| body := "Error de configuración de Cosmos DB.";
           status_code := 500; mimetype := None |}, st)) ∧
  (∀ c,
     str_lower (method req) = "get" →
     container_from_environ environ = Ok c →
     query_items c query true st = Raise CosmosResourceNotFoundError →
     main json_dumps environ uuid4 req st =
       ({| body := "Error de configuración de Cosmos DB.";
           status_code := 500; mimetype := None |}, st)) ∧
  (∀ e, e ≠ CosmosResourceNotFoundError →
     main_try json_dumps environ uuid4 req st = Raise e →
     main json_dumps environ uuid4 req st =
       ({| body := "Error interno del servidor.";
           status_code := 500; mimetype := None |}, st)) ∧
  body configuration_error_response ≠ body internal_error_response.
Proof.
  split; [|split; [|split]].
  - intros data doc c Hm Hj Ha Hc Hi.
    by rewrite (main_post _ _ _ _ _ Hm Hj Ha Hc), Hi.
  - intros c Hm Hc Hq. by rewrite (main_get _ _ _ Hm Hc), Hq.
  - intros e He Ht. unfold main. rewrite Ht. by destruct e.
  - done.
Qed.

(** C9, as amended. With one of the four configuration values missing, a
    GET, and a POST whose body parses as JSON, are answered 500 with the
    generic text and leave the store as it was: reading the configuration
    raises [KeyError], which only the catch-all handles. *)
Theorem missing_configuration req (st : S) k :
  k ∈ ["COSMOS_ENDPOINT"; "COSMOS_KEY"; "COSMOS_DATABASE";
       "COSMOS_CONTAINER"] →
  environ !! k = None →
  str_lower (method req) = "get" ∨
    (str_lower (method req) = "post" ∧ ∃ data, get_json req = Ok data) →
  (∃ k', container_from_environ environ = Raise (KeyError k')) ∧
  main json_dumps environ uuid4 req st =
    ({| body := "Error interno del servidor.";
        status_code := 500; mimetype := None |}, st).
Proof.
  intros Hk He Hreq.
  assert (∃ k', container_from_environ environ = Raise (KeyError k'))
    as [k' Hc].
  { unfold container_from_environ, environ_getitem.
    destruct (environ !! "COSMOS_ENDPOINT") eqn:E1; [|by eexists].
    destruct (environ !! "COSMOS_KEY") eqn:E2; [|by eexists].
    destruct (environ !! "COSMOS_DATABASE") eqn:E3; [|by eexists].
    destruct (environ !! "COSMOS_CONTAINER") eqn:E4; [|by eexists].
    set_unfold in Hk. intuition congruence. }
  split; [by eexists|].
  destruct Hreq as [Hm|[Hm [data Hj]]].
  - by rewrite (main_get_raise_config _ _ _ Hm Hc).
  - destruct (assign_id uuid4 data) as [doc|e] eqn:Ha.
    + by rewrite (main_post_raise_config _ _ _ _ _ Hm Hj Ha Hc).
    + rewrite (main_post_raise_id _ _ _ _ Hm Hj Ha).
      by destruct (assign_id_raises _ _ _ Ha) as [-> | ->].
Qed.

End handler_props.

(** ** The list-backed store *)

Lemma string_leb_refl s : String.leb s s = true.
Proof. by destruct (String.leb_total s s). Qed.

Lemma string_leb_trans s1 s2 s3 :
  String.leb s1 s2 = true → String.leb s2 s3 = true →
  String.leb s1 s3 = true.
Proof.
  unfold String.leb. revert s2 s3.
  induction s1 as [|a s1 IH]; intros [|b s2] [|c s3]; cbn; try done.
  unfold Ascii.compare.
  destruct (N.compare_spec (N_of_ascii a) (N_of_ascii b)) as [E1|L1|G1];
    try done;
    destruct (N.compare_spec (N_of_ascii b) (N_of_ascii c)) as [E2|L2|G2];
    try done;
    destruct (N.compare_spec (N_of_ascii a) (N_of_ascii c)) as [E3|L3|G3];
    try done; try lia.
  apply IH.
Qed.

Lemma order_by_le_cases a b :
  (∃ s t, a = Some (JStr s) ∧ b = Some (JStr t)
          ∧ order_by_le a b = String.leb s t) ∨
  ((type_rank a ≠ 4 ∨ type_rank b ≠ 4)
   ∧ order_by_le a b = (type_rank a <=? type_rank b)%nat).
Proof.
  destruct a as [[]|], b as [[]|];
    first [left; by eauto | right; split; [cbn; lia | done]].
Qed.

Lemma order_by_le_rank a b :
  order_by_le a b = true → type_rank a ≤ type_rank b.
Proof.
  destruct (order_by_le_cases a b) as [(s & t & -> & -> & _)|[_ ->]];
    [done|]. apply Nat.leb_le.
Qed.

Lemma order_by_le_total a b :
  order_by_le a b = true ∨ order_by_le b a = true.
Proof.
  destruct (order_by_le_cases a b) as [(s & t & -> & -> & _)|[Hr E]].
  - apply String.leb_total.
  - destruct (order_by_le_cases b a) as [(s & t & -> & -> & _)|[_ E']].
    { cbn in Hr. lia. }
    rewrite E, E'. rewrite !Nat.leb_le. lia.
Qed.

Lemma order_by_le_trans a b c :
  order_by_le a b = true → order_by_le b c = true → order_by_le a c = true.
Proof.
  intros Hab Hbc.
  pose proof (order_by_le_rank _ _ Hab) as Rab.
  pose proof (order_by_le_rank _ _ Hbc) as Rbc.
  destruct (order_by_le_cases a c) as [(s & u & -> & -> & _)|[_ ->]].
  - destruct (order_by_le_cases (Some (JStr s)) b)
      as [(? & t & _ & -> & _)|[Hr _]].
    + cbn in *. by apply string_leb_trans with t.
    + cbn in *. lia.
  - apply Nat.leb_le. lia.
Qed.

#[global] Instance order_by_total field descending :
  Total (order_by field descending).
Proof.
  intros d1 d2. unfold order_by. destruct descending;
    apply order_by_le_total.
Qed.

#[global] Instance order_by_trans field descending :
  Transitive (order_by field descending).
Proof.
  intros d1 d2 d3 H12 H23. unfold order_by in *. destruct descending.
  - by apply order_by_le_trans with (d2 !! field).
  - by apply order_by_le_trans with (d2 !! field).
Qed.

(** The store reads the handler's query as TOP 1, ORDER BY timestamp,
    descending. *)
Lemma parse_select_query :
  parse_select query =
    Some {| select_top := 1; order_field := "timestamp";
            order_descending := true |}.
Proof. reflexivity. Qed.

(** ORDER BY, then TOP 1: of a non-empty container the query returns one
    document, which is in the container and comes no later in the order
    than any document of the container. *)
Lemma top_1_order_by field descending (docs : list document) :
  docs ≠ [] →
  ∃ d, take 1 (merge_sort (order_by field descending) docs) = [d] ∧
       d ∈ docs ∧ ∀ d', d' ∈ docs → order_by field descending d d'.
Proof.
  intros Hne.
  pose proof (merge_sort_Permutation (order_by field descending) docs) as Hp.
  pose proof (StronglySorted_merge_sort (order_by field descending) docs)
    as Hs.
  destruct (merge_sort (order_by field descending) docs) as [|d sorted].
  { apply Permutation_nil_l in Hp. by destruct Hne. }
  exists d. split; [done|]. split.
  - rewrite <- Hp. by left.
  - intros d' Hd'. rewrite <- Hp in Hd'.
    apply StronglySorted_inv in Hs as [_ Hall].
    apply elem_of_cons in Hd' as [->|Hd'].
    + by destruct (total (order_by field descending) d d).
    + by apply (proj1 (Forall_forall _ _) Hall).
Qed.

Lemma cosmos_query_non_empty c (st : cosmos) docs :
  lookup_container c st = Ok docs →
  docs ≠ [] →
  ∃ d, query_items c query true st = Ok [JObj d] ∧ d ∈ docs ∧
       ∀ d', d' ∈ docs → order_by "timestamp" true d d'.
Proof.
  intros Hl Hne.
  destruct (top_1_order_by "timestamp" true docs Hne) as (d & Ht & Hd).
  exists d. split; [|done].
  cbn [query_items cosmos_store]. unfold cosmos_query_items.
  rewrite Hl, parse_select_query. cbn [mbind result_bind].
  cbn [select_top order_field order_descending]. by rewrite Ht.
Qed.

Section cosmos_props.
Variable json_dumps : json → string.
Variable environ : gmap string string.
Variable uuid4 : string.

(** ** GET *)

(** C5. A GET whose query returns no item is answered 404 with a fixed
    text and no JSON mimetype; in the list-backed model that is what
    happens when the container holds no document. *)
Theorem get_empty_result {S : Type} `{!DocumentStore S} req :
  str_lower (method req) = "get" →
  (∀ (st : S) c,
     container_from_environ environ = Ok c →
     query_items c query true st = Ok [] →
     main json_dumps environ uuid4 req st =
       ({| body := "No hay lecturas disponibles.";
           status_code := 404; mimetype := None |}, st)) ∧
  (∀ (st : cosmos) c,
     container_from_environ environ = Ok c →
     lookup_container c st = Ok [] →
     main json_dumps environ uuid4 req st =
       ({| body := "No hay lecturas disponibles.";
           status_code := 404; mimetype := None |}, st)).
Proof.
  intros Hm. split.
  - intros st c Hc Hq. by rewrite (main_get _ _ _ _ _ _ Hm Hc), Hq.
  - intros st c Hc Hl. rewrite (main_get _ _ _ _ _ _ Hm Hc).
    cbn [query_items cosmos_store]. unfold cosmos_query_items.
    by rewrite Hl.
Qed.

(** C2, as amended. A GET on a container that holds at least one document,
    all with a string [timestamp], is answered 200 with mimetype
    application/json
    and the serialization of one document of the container, unchanged,
    whose timestamp is lexicographically greatest; the store is left as it
    was. Of three documents stamped 2024-01-01, 2024-01-02 and 2023-12-31
    (at 00:00:00), the second is returned. *)
Theorem get_returns_latest req (st : cosmos) c docs :
  str_lower (method req) = "get" →
  container_from_environ environ = Ok c →
  lookup_container c st = Ok docs →
  (docs ≠ [] →
   Forall (λ d : document, ∃ t, d !! "timestamp" = Some (JStr t)) docs →
   ∃ d t,
     d ∈ docs ∧ d !! "timestamp" = Some (JStr t) ∧
     (∀ d' t', d' ∈ docs → d' !! "timestamp" = Some (JStr t') →
               String.leb t' t = true) ∧
     main json_dumps environ uuid4 req st =
       ({| body := json_dumps (JObj d);
           status_code := 200; mimetype := Some "application/json" |}, st)) ∧
  (∀ d1 d2 d3 : document,
     docs = [d1; d2; d3] →
     d1 !! "timestamp" = Some (JStr "2024-01-01 00:00:00") →
     d2 !! "timestamp" = Some (JStr "2024-01-02 00:00:00") →
     d3 !! "timestamp" = Some (JStr "2023-12-31 00:00:00") →
     main json_dumps environ uuid4 req st =
       ({| body := json_dumps (JObj d2);
           status_code := 200; mimetype := Some "application/json" |}, st)).
Proof.
  intros Hm Hc Hl.
  assert (docs ≠ [] →
    Forall (λ d : document, ∃ t, d !! "timestamp" = Some (JStr t)) docs →
    ∃ d t,
      d ∈ docs ∧ d !! "timestamp" = Some (JStr t) ∧
      (∀ d' t', d' ∈ docs → d' !! "timestamp" = Some (JStr t') →
                String.leb t' t = true) ∧
      main json_dumps environ uuid4 req st =
        (latest_response json_dumps (JObj d), st)) as General.
  { intros Hne Hall.
    destruct (cosmos_query_non_empty c st docs Hl Hne) as (d & Hq & Hd & Hmax).
    destruct (proj1 (Forall_forall _ _) Hall d Hd) as [t Ht].
    exists d, t. repeat split; try done.
    - intros d' t' Hd' Ht'. specialize (Hmax d' Hd').
      unfold order_by in Hmax. by rewrite Ht, Ht' in Hmax.
    - by rewrite (main_get _ _ _ _ _ _ Hm Hc), Hq. }
  split; [done|].
  intros d1 d2 d3 -> H1 H2 H3.
  destruct General as (d & t & Hd & Ht & Hmax & ->).
  { done. }
  { repeat constructor; by eexists. }
  assert (d2 ∈ [d1; d2; d3]) as Hd2 by (right; left).
  pose proof (Hmax d2 _ Hd2 H2) as Hge.
  apply elem_of_cons in Hd as [-> | Hd];
    [rewrite H1 in Ht; injection Ht as <-; by vm_compute in Hge|].
  apply elem_of_cons in Hd as [-> | Hd]; [done|].
  apply elem_of_cons in Hd as [-> | Hd]; [|by apply elem_of_nil in Hd].
  rewrite H3 in Ht. injection Ht as <-. by vm_compute in Hge.
Qed.

End cosmos_props.

(** * The theorems at sample inputs *)

Module Witness.
Import Sample.

Abbreviation serve := (main json_dumps environ uuid4).

Lemma environ_container : container_from_environ environ = Ok container.
Proof. reflexivity. Defined.

Lemma post_id_from_uid_and_timestamp_witness :
  str_lower (method (post (JObj payload))) = "post" ∧
  payload !! "uid" = Some (JStr "7C/22#9?") ∧
  payload !! "timestamp" = Some (JStr "2024-01-02 10:15:30.5") ∧
  assign_id uuid4 (JObj payload) =
    Ok (JObj (<["id" := JStr "7C_22_9_-2024-01-02_10-15-30_5-3f2b8c1e"]>
                payload)).
Proof.
  do 3 (split; [reflexivity|]).
  pose proof (post_id_from_uid_and_timestamp json_dumps environ uuid4
                (post (JObj payload)) (account []) payload
                "7C/22#9?" "2024-01-02 10:15:30.5"
                eq_refl eq_refl eq_refl eq_refl) as [H _].
  exact H.
Defined.

Lemma post_id_kept_or_generated_witness :
  str_lower (method (post (JObj labelled))) = "post" ∧
  ¬ (is_Some (labelled !! "uid") ∧ is_Some (labelled !! "timestamp")) ∧
  labelled !! "id" = Some (JStr "manual-1") ∧
  assign_id uuid4 (JObj labelled) = Ok (JObj labelled).
Proof.
  assert (¬ (is_Some (labelled !! "uid")
             ∧ is_Some (labelled !! "timestamp"))) as Hn.
  { intros [_ [v Hv]]. discriminate Hv. }
  split; [reflexivity|]. split; [exact Hn|]. split; [reflexivity|].
  pose proof (post_id_kept_or_generated json_dumps environ uuid4
                (post (JObj labelled)) (account []) labelled
                eq_refl eq_refl Hn) as [H _].
  exact (H (JStr "manual-1") eq_refl).
Defined.


Lemma post_stores_payload_with_id_witness :
  str_lower (method (post (JObj payload))) = "post" ∧
  get_json (post (JObj payload)) = Ok (JObj payload) ∧
  let r := serve (post (JObj payload)) (account [first]) in
  (r.2 = account [first] ∧ r.1 ≠ saved_response) ∨
  (∃ v c,
     container_from_environ environ = Ok c ∧
     create_item c (JObj (<["id" := v]> payload)) (account [first])
       = Ok r.2 ∧
     r.1 = saved_response ∧
     (∀ k, k ≠ "id" → (<["id" := v]> payload) !! k = payload !! k) ∧
     dom (<["id" := v]> payload) = {["id"]} ∪ dom payload).
Proof.
  split; [reflexivity|]. split; [reflexivity|].
  exact (post_stores_payload_with_id json_dumps environ uuid4
           (post (JObj payload)) (account [first]) payload
           eq_refl eq_refl).
Defined.

Lemma post_non_object_witness :
  str_lower (method (post (JStr "id"))) = "post" ∧
  (∀ m, JStr "id" ≠ JObj m) ∧
  assign_id uuid4 (JStr "id") = Raise TypeError ∧
  serve (post (JStr "id")) (account []) =
    (internal_error_response, account []).
Proof.
  assert (∀ m, JStr "id" ≠ JObj m) as Hn by (intros m; discriminate).
  split; [reflexivity|]. split; [exact Hn|].
  exact (post_non_object json_dumps environ uuid4
           (post (JStr "id")) (account []) (JStr "id")
           eq_refl eq_refl Hn).
Defined.

Lemma get_empty_result_witness :
  str_lower (method get) = "get" ∧
  lookup_container container (account []) = Ok [] ∧
  serve get (account []) = (no_readings_response, account []).
Proof.
  split; [reflexivity|]. split; [reflexivity|].
  pose proof (get_empty_result json_dumps environ uuid4 (S := cosmos)
                get eq_refl) as [_ H].
  exact (H (account []) container environ_container eq_refl).
Defined.

Lemma get_returns_latest_witness :
  str_lower (method get) = "get" ∧
  lookup_container container (account [first; second; third])
    = Ok [first; second; third] ∧
  query_items container query true (account [first; second; third])
    = Ok [JObj second] ∧
  json_dumps (JObj second) = "r2 @ 2024-01-02 00:00:00" ∧
  Forall (λ d : document, ∃ t, d !! "timestamp" = Some (JStr t))
    [first; second; third] ∧
  (∃ d t,
     d ∈ [first; second; third] ∧ d !! "timestamp" = Some (JStr t) ∧
     (∀ d' t', d' ∈ [first; second; third] →
               d' !! "timestamp" = Some (JStr t') →
               String.leb t' t = true) ∧
     serve get (account [first; second; third]) =
       ({| body := json_dumps (JObj d);
           status_code := 200; mimetype := Some "application/json" |},
        account [first; second; third])) ∧
  serve get (account [first; second; third]) =
    ({| body := json_dumps (JObj second);
        status_code := 200; mimetype := Some "application/json" |},
     account [first; second; third]).
Proof.
  assert (Forall (λ d : document, ∃ t, d !! "timestamp" = Some (JStr t))
            [first; second; third]) as Hall.
  { repeat constructor; eexists; reflexivity. }
  do 4 (split; [reflexivity|]). split; [exact Hall|].
  pose proof (get_returns_latest json_dumps environ uuid4 get
                (account [first; second; third]) container
                [first; second; third]
                eq_refl environ_container eq_refl) as [G H].
  split.
  - apply G; [discriminate | exact Hall].
  - exact (H first second third eq_refl eq_refl eq_refl eq_refl).
Defined.

Lemma method_dispatch_witness :
  str_lower (method put) ≠ "post" ∧ str_lower (method put) ≠ "get" ∧
  serve put (account [first]) =
    (unsupported_method_response, account [first]) ∧
  serve {| method := "Post"; get_json := Raise ValueError |}
    (account [first]) =
    serve unparsable (account [first]).
Proof.
  assert (str_lower (method put) ≠ "post") as Hp by discriminate.
  assert (str_lower (method put) ≠ "get") as Hg by discriminate.
  split; [exact Hp|]. split; [exact Hg|].
  pose proof (method_dispatch json_dumps environ uuid4 put (account [first]))
    as [H _].
  pose proof (method_dispatch json_dumps environ uuid4 unparsable
                (account [first])) as (_ & _ & H' & _).
  split; [exact (H Hp Hg)|].
  exact (H' {| method := "Post"; get_json := Raise ValueError |}
           eq_refl eq_refl).
Defined.

Lemma resource_not_found_is_configuration_error_witness :
  create_item container (JObj (<["id" := JStr uuid4]> ∅)) no_database
    = Raise CosmosResourceNotFoundError ∧
  query_items container query true no_database
    = Raise CosmosResourceNotFoundError ∧
  serve (post (JObj ∅)) no_database
    = (configuration_error_response, no_database) ∧
  serve get no_database = (configuration_error_response, no_database).
Proof.
  split; [reflexivity|]. split; [reflexivity|].
  pose proof (resource_not_found_is_configuration_error json_dumps environ
                uuid4 (post (JObj ∅)) no_database) as (Hpost & _).
  pose proof (resource_not_found_is_configuration_error json_dumps environ
                uuid4 get no_database) as (_ & Hget & _).
  split.
  - exact (Hpost (JObj ∅) (JObj (<["id" := JStr uuid4]> ∅)) container
             eq_refl eq_refl eq_refl environ_container eq_refl).
  - exact (Hget container eq_refl environ_container eq_refl).
Defined.

Lemma missing_configuration_witness :
  "COSMOS_KEY" ∈ ["COSMOS_ENDPOINT"; "COSMOS_KEY"; "COSMOS_DATABASE";
                  "COSMOS_CONTAINER"] ∧
  no_key !! "COSMOS_KEY" = None ∧
  main json_dumps no_key uuid4 (post (JObj payload)) (account [first]) =
    (internal_error_response, account [first]).
Proof.
  assert ("COSMOS_KEY" ∈ ["COSMOS_ENDPOINT"; "COSMOS_KEY"; "COSMOS_DATABASE";
                          "COSMOS_CONTAINER"]) as Hk by (right; left).
  split; [exact Hk|]. split; [reflexivity|].
  pose proof (missing_configuration json_dumps no_key uuid4
                (post (JObj payload)) (account [first]) "COSMOS_KEY"
                Hk eq_refl (or_intror (conj eq_refl (ex_intro _ (JObj payload) eq_refl))))
    as [_ H].
  exact H.
Defined.

(** ** End to end on the list-backed store *)

(** A POST appends the payload with its [id]; a GET then returns it, its
    timestamp being the greatest. *)
Example post_then_get :
  serve (post (JObj payload)) (account [first]) =
    (saved_response, account [first; stored_payload]) ∧
  serve get (account [first; stored_payload]) =
    ({| body := json_dumps (JObj stored_payload);
        status_code := 200; mimetype := Some "application/json" |},
     account [first; stored_payload]).
Proof. split; vm_compute; reflexivity. Qed.

(** A second insertion of an explicit [id] is a conflict of the store and
    ends in the generic answer. *)
Example post_duplicate_id :
  serve (post (JObj labelled)) (account [labelled]) =
    (internal_error_response, account [labelled]).
Proof. vm_compute; reflexivity. Qed.

(** A non-string [uid] has no [replace]: [AttributeError], generic
    answer, nothing stored. *)
Example post_numeric_uid :
  serve (post (JObj (<["uid" := JInt 7]> payload))) (account []) =
    (internal_error_response, account []).
Proof. vm_compute; reflexivity. Qed.

End Witness.

(** * Where the handler departs from a literal reading of the spec *)

Module Counterexample.
Import Sample.

(** C9 as stated fails on a POST whose body does not parse: with the whole
    configuration missing, the answer is still 400, because the body is
    parsed before the configuration is read. *)
Lemma missing_configuration_unparsable_post :
  (∅ : gmap string string) !! "COSMOS_ENDPOINT" = None ∧
  str_lower (method unparsable) = "post" ∧
  main json_dumps ∅ uuid4 unparsable (account [])
    = (invalid_body_response, account []) ∧
  main json_dumps ∅ uuid4 unparsable (account [])
    ≠ (internal_error_response, account []).
Proof. repeat split; try reflexivity. discriminate. Qed.

(** C10 as stated fails on the JSON string ["id"]: both membership tests
    of lines 32 and 37 return, no assignment runs, and lines 32 to 38
    finish without raising. What raises is the read [data['id']] in the
    log line 40. *)
Lemma string_id_passes_lines_32_to_38 :
  py_in "uid" (JStr "id") = Ok false ∧
  py_in "id" (JStr "id") = Ok true ∧
  derive_id uuid4 (JStr "id") = Ok (JStr "id") ∧
  py_getitem (JStr "id") "id" = Raise TypeError.
Proof. repeat split; reflexivity. Qed.

(** C2 as stated fails on a container that holds a document whose
    [timestamp] is not a string. The handler stores such a document (it has
    an [id] of its own, so line 37 keeps it), and the GET that follows
    returns it, an array ranking above every string under ORDER BY, and
    not the document with the greatest string timestamp. *)
Lemma get_returns_array_timestamp :
  main json_dumps environ uuid4 (post (JObj array_timestamp))
    (account [second])
    = (saved_response, account [second; array_timestamp]) ∧
  lookup_container container (account [second; array_timestamp])
    = Ok [second; array_timestamp] ∧
  second !! "timestamp" = Some (JStr "2024-01-02 00:00:00") ∧
  array_timestamp !! "timestamp" = Some (JArr []) ∧
  query_items container query true (account [second; array_timestamp])
    = Ok [JObj array_timestamp] ∧
  main json_dumps environ uuid4 get (account [second; array_timestamp])
    = ({| body := json_dumps (JObj array_timestamp);
          status_code := 200; mimetype := Some "application/json" |},
       account [second; array_timestamp]) ∧
  json_dumps (JObj array_timestamp) ≠ json_dumps (JObj second).
Proof.
  split; [vm_compute; reflexivity|].
  do 3 (split; [reflexivity|]).
  split; [vm_compute; reflexivity|].
  split; [vm_compute; reflexivity|].
  discriminate.
Qed.


End Counterexample.

(** * More about the code *)

(** ** The sanitizers of lines 34 and 35 *)

Lemma str_contains_char c a s :
  str_contains (String c "") (String a s)
  = Ascii.eqb a c || str_contains (String c "") s.
Proof.
  cbn [str_contains String.prefix].
  destruct (ascii_dec c a) as [->|Hne].
  - rewrite Ascii.eqb_refl. by destruct s.
  - destruct (Ascii.eqb_spec a c) as [->|_]; [by destruct Hne|done].
Qed.

Lemma str_contains_char_nil c : str_contains (String c "") "" = false.
Proof. done. Qed.

Lemma str_contains_map_absent f c s :
  (∀ a, f a ≠ c) → str_contains (String c "") (str_map f s) = false.
Proof.
  intros Hf. induction s as [|a s IH]; [done|].
  cbn [str_map]. rewrite str_contains_char, IH.
  by destruct (Ascii.eqb_spec (f a) c) as [E|_]; [destruct (Hf a)|].
Qed.

Lemma str_contains_map_fixed f c s :
  (∀ a, f a = c ↔ a = c) →
  str_contains (String c "") (str_map f s) = str_contains (String c "") s.
Proof.
  intros Hf. induction s as [|a s IH]; [done|].
  cbn [str_map]. rewrite !str_contains_char, IH. f_equal.
  destruct (Ascii.eqb_spec (f a) c) as [E|N], (Ascii.eqb_spec a c) as [E'|N'];
    try done.
  - destruct N'. by apply (Hf a).
  - destruct N. by apply (Hf a).
Qed.

Lemma str_map_length f s : String.length (str_map f s) = String.length s.
Proof. induction s as [|a s IH]; [done|]. cbn. by rewrite IH. Qed.

Lemma str_map_id f s :
  (∀ a, str_contains (String a "") s = true → f a = a) → str_map f s = s.
Proof.
  induction s as [|a s IH]; [done|]. intros Hf. cbn [str_map]. f_equal.
  - apply Hf. by rewrite str_contains_char, Ascii.eqb_refl.
  - apply IH. intros b Hb. apply Hf.
    rewrite str_contains_char, Hb. by destruct (Ascii.eqb a b).
Qed.

Lemma sanitize_uid_char_cases a :
  (a = "/" ∨ a = "\" ∨ a = "#" ∨ a = "?")%char ∧ sanitize_uid_char a = "_"%char
  ∨ (a ≠ "/" ∧ a ≠ "\" ∧ a ≠ "#" ∧ a ≠ "?")%char ∧ sanitize_uid_char a = a.
Proof.
  unfold sanitize_uid_char.
  destruct (Ascii.eqb_spec a "/"); [left; by auto|].
  destruct (Ascii.eqb_spec a "\"); [left; by auto|].
  destruct (Ascii.eqb_spec a "#"); [left; by auto|].
  destruct (Ascii.eqb_spec a "?"); [left; by auto|].
  right. by auto.
Qed.

Lemma sanitize_timestamp_char_cases a :
  (a = " " ∨ a = ".")%char ∧ sanitize_timestamp_char a = "_"%char
  ∨ a = ":"%char ∧ sanitize_timestamp_char a = "-"%char
  ∨ (a ≠ " " ∧ a ≠ "." ∧ a ≠ ":")%char ∧ sanitize_timestamp_char a = a.
Proof.
  unfold sanitize_timestamp_char.
  destruct (Ascii.eqb_spec a " "); [left; by auto|].
  destruct (Ascii.eqb_spec a "."); [left; by auto|].
  destruct (Ascii.eqb_spec a ":"); [right; left; by auto|].
  right. right. by auto.
Qed.

(** X1. What line 34 returns holds none of [/], [\], [#], [?], and what
    line 35 returns holds no space, no colon and no period. *)
Theorem cleaned_characters_absent uid timestamp :
  (str_contains "/" (clean_uid uid) = false ∧
   str_contains "\" (clean_uid uid) = false ∧
   str_contains "#" (clean_uid uid) = false ∧
   str_contains "?" (clean_uid uid) = false) ∧
  (str_contains " " (clean_timestamp timestamp) = false ∧
   str_contains ":" (clean_timestamp timestamp) = false ∧
   str_contains "." (clean_timestamp timestamp) = false).
Proof.
  rewrite clean_uid_sanitize, clean_timestamp_sanitize.
  unfold sanitize_uid, sanitize_timestamp.
  repeat split; apply str_contains_map_absent; intros a.
  all: first
    [ destruct (sanitize_uid_char_cases a) as [[_ ->]|[(?&?&?&?) ->]]; done
    | destruct (sanitize_timestamp_char_cases a)
        as [[_ ->]|[[_ ->]|[(?&?&?) ->]]]; done ].
Qed.

(** X2. Line 35 does not apply the rule of line 34: a [/], [\], [#] or [?]
    is in the cleaned timestamp exactly when it is in the timestamp, so
    it reaches the [id]. *)
Theorem clean_timestamp_keeps_uid_characters timestamp :
  str_contains "/" (clean_timestamp timestamp) = str_contains "/" timestamp ∧
  str_contains "\" (clean_timestamp timestamp) = str_contains "\" timestamp ∧
  str_contains "#" (clean_timestamp timestamp) = str_contains "#" timestamp ∧
  str_contains "?" (clean_timestamp timestamp) = str_contains "?" timestamp.
Proof.
  rewrite clean_timestamp_sanitize. unfold sanitize_timestamp.
  repeat split; apply str_contains_map_fixed; intros a.
  all: destruct (sanitize_timestamp_char_cases a)
         as [[[-> | ->] ->]|[[-> ->]|[_ ->]]]; done.
Qed.

(** X3. A uid without [/], [\], [#], [?] is left as it is by line 34, and a
    timestamp without space, colon and period by line 35. *)
Theorem clean_is_identity_on_clean uid timestamp :
  (str_contains "/" uid = false → str_contains "\" uid = false →
   str_contains "#" uid = false → str_contains "?" uid = false →
   clean_uid uid = uid) ∧
  (str_contains " " timestamp = false → str_contains ":" timestamp = false →
   str_contains "." timestamp = false →
   clean_timestamp timestamp = timestamp).
Proof.
  rewrite clean_uid_sanitize, clean_timestamp_sanitize.
  unfold sanitize_uid, sanitize_timestamp. split.
  - intros H1 H2 H3 H4. apply str_map_id. intros a Ha.
    destruct (sanitize_uid_char_cases a)
      as [[[-> | [-> | [-> | ->]]] _]|[_ ->]]; congruence.
  - intros H1 H2 H3. apply str_map_id. intros a Ha.
    destruct (sanitize_timestamp_char_cases a)
      as [[[-> | ->] _]|[[-> _]|[_ ->]]]; congruence.
Qed.

(** ** The [id] of line 36 *)

Lemma str_append_length a b :
  String.length (a +:+ b) = String.length a + String.length b.
Proof. induction a as [|c a IH]; [done|]. simpl. by f_equal. Qed.

Lemma str_append_inj a b b' : a +:+ b = a +:+ b' → b = b'.
Proof. induction a as [|c a IH]; [done|]. cbn. intros [= E]. by apply IH. Qed.

Lemma str_take_length n s :
  String.length (str_take n s) = n `min` String.length s.
Proof.
  revert s. induction n as [|n IH]; intros [|c s]; simpl; try done.
  by f_equal.
Qed.

Lemma ok_insert_inj k a b (m m' : document) :
  Ok (JObj (<[k := JStr a]> m)) = Ok (JObj (<[k := JStr b]> m')) → a = b.
Proof.
  intros E. injection E as E. apply (f_equal (λ d, d !! k)) in E.
  rewrite !lookup_insert_eq in E. congruence.
Qed.

(** X4. The [id] built from a string [uid] and a string [timestamp] is as
    long as the two together, plus the two hyphens, plus the 8 characters
    taken from the UUID text (fewer if the text is shorter). *)
Theorem derived_id_length uuid4 (data : document) uid timestamp :
  data !! "uid" = Some (JStr uid) →
  data !! "timestamp" = Some (JStr timestamp) →
  ∃ i, assign_id uuid4 (JObj data) = Ok (JObj (<["id" := JStr i]> data)) ∧
       String.length i =
         String.length uid + String.length timestamp + 2
         + 8 `min` String.length uuid4.
Proof.
  intros Hu Ht. eexists. split; [by apply assign_id_both|].
  rewrite !str_append_length, str_take_length.
  rewrite clean_uid_sanitize, clean_timestamp_sanitize.
  unfold sanitize_uid, sanitize_timestamp. rewrite !str_map_length.
  cbn. lia.
Qed.

(** X5. Two invocations on the same object with a string [uid] and a string
    [timestamp] produce the same document exactly when their UUID texts
    agree on the first 8 characters: the rest of the UUID plays no part. *)
Theorem derived_id_collision u1 u2 (data : document) uid timestamp :
  data !! "uid" = Some (JStr uid) →
  data !! "timestamp" = Some (JStr timestamp) →
  assign_id u1 (JObj data) = assign_id u2 (JObj data)
  ↔ str_take 8 u1 = str_take 8 u2.
Proof.
  intros Hu Ht.
  rewrite (assign_id_both u1 _ _ _ Hu Ht), (assign_id_both u2 _ _ _ Hu Ht).
  split.
  - intros E. apply ok_insert_inj in E.
    by repeat apply str_append_inj in E.
  - by intros ->.
Qed.

(** X6. For an object, lines 32 to 40 fail in one way only: both [uid] and
    [timestamp] are present and one of them is not a string, which raises
    [AttributeError]. *)
Theorem assign_id_object_raises uuid4 (data : document) e :
  assign_id uuid4 (JObj data) = Raise e
  ↔ e = AttributeError ∧
    ∃ u t, data !! "uid" = Some u ∧ data !! "timestamp" = Some t ∧
           ¬ (∃ s s', u = JStr s ∧ t = JStr s').
Proof.
  destruct (decide (is_Some (data !! "uid") ∧ is_Some (data !! "timestamp")))
    as [[[u Hu] [t Ht]]|Hn].
  - split.
    + intros Ha. assert (e = AttributeError) as ->.
      { destruct (assign_id_raises _ _ _ Ha) as [-> | ->]; [|done].
        revert Ha. unfold assign_id, derive_id.
        rewrite (py_in_object_Some _ _ _ Hu), (py_in_object_Some _ _ _ Ht).
        rewrite (py_getitem_object _ _ _ Hu), (py_getitem_object _ _ _ Ht).
        run. destruct u; run; try done. destruct t; run; try done.
        by rewrite py_getitem_insert. }
      split; [done|]. exists u, t. repeat split; try done.
      intros (s & s' & -> & ->).
      by rewrite (assign_id_both _ _ _ _ Hu Ht) in Ha.
    + intros (-> & u' & t' & Hu' & Ht' & Hns).
      rewrite Hu in Hu'. rewrite Ht in Ht'.
      injection Hu' as <-. injection Ht' as <-.
      unfold assign_id, derive_id.
      rewrite (py_in_object_Some _ _ _ Hu), (py_in_object_Some _ _ _ Ht).
      rewrite (py_getitem_object _ _ _ Hu), (py_getitem_object _ _ _ Ht).
      run. destruct u; run; try done. destruct t; run; try done.
      destruct Hns. by eauto.
  - split.
    + intros Ha. destruct (data !! "id") as [v|] eqn:Hi.
      * by rewrite (assign_id_kept _ _ _ Hn Hi) in Ha.
      * by rewrite (assign_id_generated _ _ Hn Hi) in Ha.
    + intros (_ & u & t & Hu & Ht & _). destruct Hn. by split; eexists.
Qed.

(** ** The configuration of lines 44 to 47 and 69 to 72 *)

(** X7. The configuration is complete exactly when the four variables are
    set, and the container proxy is then built from their four values;
    otherwise the [KeyError] names the first variable, in source order,
    that is not set. *)
Theorem container_from_environ_cases (environ : gmap string string) :
  (∀ c, container_from_environ environ = Ok c
        ↔ ∃ endpoint key database_name container_name,
            environ !! "COSMOS_ENDPOINT" = Some endpoint ∧
            environ !! "COSMOS_KEY" = Some key ∧
            environ !! "COSMOS_DATABASE" = Some database_name ∧
            environ !! "COSMOS_CONTAINER" = Some container_name ∧
            c = get_container_client
                  (get_database_client (CosmosClient endpoint key)
                     database_name)
                  container_name) ∧
  (∀ e, container_from_environ environ = Raise e
        ↔ ∃ before k after,
            ["COSMOS_ENDPOINT"; "COSMOS_KEY"; "COSMOS_DATABASE";
             "COSMOS_CONTAINER"] = before ++ k :: after ∧
            Forall (λ k', is_Some (environ !! k')) before ∧
            environ !! k = None ∧ e = KeyError k).
Proof.
  unfold container_from_environ, environ_getitem.
  destruct (environ !! "COSMOS_ENDPOINT") as [v1|] eqn:E1; cbn.
  2:{ split.
      - intros c. split; [done|]. by intros (?&?&?&?&?&_).
      - intros e. split.
        + intros [= <-].
          by exists [], "COSMOS_ENDPOINT",
                    ["COSMOS_KEY"; "COSMOS_DATABASE"; "COSMOS_CONTAINER"].
        + intros (before & k & after & Hl & Hb & Hk & ->).
          destruct before as [|? before]; injection Hl as <- Hl; [done|].
          apply Forall_cons in Hb as [[? Hb] _]. congruence. }
  destruct (environ !! "COSMOS_KEY") as [v2|] eqn:E2; cbn.
  2:{ split.
      - intros c. split; [done|]. by intros (?&?&?&?&_&?&_).
      - intros e. split.
        + intros [= <-].
          exists ["COSMOS_ENDPOINT"], "COSMOS_KEY",
                 ["COSMOS_DATABASE"; "COSMOS_CONTAINER"].
          repeat split; try done. repeat constructor. by eexists.
        + intros (before & k & after & Hl & Hb & Hk & ->).
          destruct before as [|? before]; injection Hl as <- Hl;
            [congruence|].
          destruct before as [|? before]; injection Hl as <- Hl; [done|].
          apply Forall_cons in Hb as [_ Hb].
          apply Forall_cons in Hb as [[? Hb] _]. congruence. }
  destruct (environ !! "COSMOS_DATABASE") as [v3|] eqn:E3; cbn.
  2:{ split.
      - intros c. split; [done|]. by intros (?&?&?&?&_&_&?&_).
      - intros e. split.
        + intros [= <-].
          exists ["COSMOS_ENDPOINT"; "COSMOS_KEY"], "COSMOS_DATABASE",
                 ["COSMOS_CONTAINER"].
          repeat split; try done. repeat constructor; by eexists.
        + intros (before & k & after & Hl & Hb & Hk & ->).
          destruct before as [|? before]; injection Hl as <- Hl;
            [congruence|].
          destruct before as [|? before]; injection Hl as <- Hl;
            [congruence|].
          destruct before as [|? before]; injection Hl as <- Hl; [done|].
          do 2 apply Forall_cons in Hb as [_ Hb].
          apply Forall_cons in Hb as [[? Hb] _]. congruence. }
  destruct (environ !! "COSMOS_CONTAINER") as [v4|] eqn:E4; cbn.
  2:{ split.
      - intros c. split; [done|]. by intros (?&?&?&?&_&_&_&?&_).
      - intros e. split.
        + intros [= <-].
          exists ["COSMOS_ENDPOINT"; "COSMOS_KEY"; "COSMOS_DATABASE"],
                 "COSMOS_CONTAINER", [].
          repeat split; try done. repeat constructor; by eexists.
        + intros (before & k & after & Hl & Hb & Hk & ->).
          destruct before as [|? before]; injection Hl as <- Hl;
            [congruence|].
          destruct before as [|? before]; injection Hl as <- Hl;
            [congruence|].
          destruct before as [|? before]; injection Hl as <- Hl;
            [congruence|].
          destruct before as [|? before]; injection Hl as <- Hl; [done|].
          do 3 apply Forall_cons in Hb as [_ Hb].
          apply Forall_cons in Hb as [[? Hb] _]. congruence. }
  split.
  - intros c. split.
    + intros [= <-]. by exists v1, v2, v3, v4.
    + intros (?&?&?&?&[= <-]&[= <-]&[= <-]&[= <-]&->). done.
  - intros e. split; [done|].
    intros (before & k & after & Hl & Hb & Hk & ->).
    destruct before as [|? before]; injection Hl as <- Hl; [congruence|].
    destruct before as [|? before]; injection Hl as <- Hl; [congruence|].
    destruct before as [|? before]; injection Hl as <- Hl; [congruence|].
    destruct before as [|? before]; injection Hl as <- Hl; [congruence|].
    by destruct before.
Qed.

(** ** The handler as a whole *)

Lemma handle_exception_status e :
  status_code (handle_exception e) = 500%Z ∧
  mimetype (handle_exception e) = None.
Proof. by destruct e. Qed.


Lemma assign_id_not_strings uuid4 (data : document) u t :
  data !! "uid" = Some u → data !! "timestamp" = Some t →
  ¬ (∃ s s', u = JStr s ∧ t = JStr s') →
  assign_id uuid4 (JObj data) = Raise AttributeError.
Proof.
  intros Hu Ht Hns. unfold assign_id, derive_id.
  rewrite (py_in_object_Some _ _ _ Hu), (py_in_object_Some _ _ _ Ht).
  rewrite (py_getitem_object _ _ _ Hu), (py_getitem_object _ _ _ Ht).
  run. destruct u; run; try done. destruct t; run; try done.
  destruct Hns. by eauto.
Qed.

Section handler_more.
Variable json_dumps : json → string.
Variable environ : gmap string string.
Variable uuid4 : string.
Context {S : Type} `{!DocumentStore S}.

Lemma main_post_unparsable req (st : S) :
  str_lower (method req) = "post" →
  get_json req = Raise ValueError →
  main json_dumps environ uuid4 req st = (invalid_body_response, st).
Proof. intros Hm Hj. unfold main, main_try. by rewrite Hm, Hj. Qed.

Lemma main_unsupported req (st : S) :
  str_lower (method req) ≠ "post" →
  str_lower (method req) ≠ "get" →
  main json_dumps environ uuid4 req st = (unsupported_method_response, st).
Proof.
  intros Hp Hg. unfold main, main_try.
  apply String.eqb_neq in Hp, Hg. by rewrite Hp, Hg.
Qed.

Lemma main_post_raise_parse req (st : S) e :
  str_lower (method req) = "post" →
  get_json req = Raise e →
  e ≠ ValueError →
  main json_dumps environ uuid4 req st = (handle_exception e, st).
Proof.
  intros Hm Hj He. unfold main, main_try. rewrite Hm, Hj. by destruct e.
Qed.

(** Every run of [main] is one of eleven: six ends of POST, four of GET,
    and the unsupported method. *)
Lemma main_cases req (st : S) :
  let r := main json_dumps environ uuid4 req st in
  let m := str_lower (method req) in
  (m = "post" ∧ get_json req = Raise ValueError ∧
   r = (invalid_body_response, st)) ∨
  (m = "post" ∧ ∃ e,
     get_json req = Raise e ∧ e ≠ ValueError ∧
     r = (handle_exception e, st)) ∨
  (m = "post" ∧ ∃ data e,
     get_json req = Ok data ∧ assign_id uuid4 data = Raise e ∧
     r = (handle_exception e, st)) ∨
  (m = "post" ∧ ∃ data doc e,
     get_json req = Ok data ∧ assign_id uuid4 data = Ok doc ∧
     container_from_environ environ = Raise e ∧
     r = (handle_exception e, st)) ∨
  (m = "post" ∧ ∃ data doc c e,
     get_json req = Ok data ∧ assign_id uuid4 data = Ok doc ∧
     container_from_environ environ = Ok c ∧
     create_item c doc st = Raise e ∧ r = (handle_exception e, st)) ∨
  (m = "post" ∧ ∃ data doc c st',
     get_json req = Ok data ∧ assign_id uuid4 data = Ok doc ∧
     container_from_environ environ = Ok c ∧
     create_item c doc st = Ok st' ∧ r = (saved_response, st')) ∨
  (m = "get" ∧ ∃ e,
     container_from_environ environ = Raise e ∧
     r = (handle_exception e, st)) ∨
  (m = "get" ∧ ∃ c e,
     container_from_environ environ = Ok c ∧
     query_items c query true st = Raise e ∧ r = (handle_exception e, st)) ∨
  (m = "get" ∧ ∃ c,
     container_from_environ environ = Ok c ∧
     query_items c query true st = Ok [] ∧ r = (no_readings_response, st)) ∨
  (m = "get" ∧ ∃ c x rest,
     container_from_environ environ = Ok c ∧
     query_items c query true st = Ok (x :: rest) ∧
     r = (latest_response json_dumps x, st)) ∨
  (m ≠ "post" ∧ m ≠ "get" ∧ r = (unsupported_method_response, st)).
Proof.
  intros r m. subst r m.
  destruct (decide (str_lower (method req) = "post")) as [Hp|Hp].
  - destruct (get_json req) as [data|e] eqn:Hj.
    2:{ assert (e = ValueError ∨ e ≠ ValueError) as [->|He]
          by (destruct e; first [by left | by right]).
        - left. by rewrite (main_post_unparsable _ _ Hp Hj).
        - right; left. rewrite (main_post_raise_parse _ _ _ Hp Hj He).
          by eauto. }
    destruct (assign_id uuid4 data) as [doc|e] eqn:Ha.
    2:{ do 2 right; left.
        rewrite (main_post_raise_id _ _ _ _ _ _ _ Hp Hj Ha).
        by eauto 10. }
    destruct (container_from_environ environ) as [c|e] eqn:Hc.
    2:{ do 3 right; left.
        rewrite (main_post_raise_config _ _ _ _ _ _ _ _ Hp Hj Ha Hc).
        by eauto 10. }
    rewrite (main_post _ _ _ _ _ _ _ _ Hp Hj Ha Hc).
    destruct (create_item c doc st) as [st'|e] eqn:Hi.
    + do 5 right; left. by eauto 12.
    + do 4 right; left. by eauto 12.
  - destruct (decide (str_lower (method req) = "get")) as [Hg|Hg].
    + destruct (container_from_environ environ) as [c|e] eqn:Hc.
      2:{ do 6 right; left.
          rewrite (main_get_raise_config _ _ _ _ _ _ Hg Hc). by eauto. }
      rewrite (main_get _ _ _ _ _ _ Hg Hc).
      destruct (query_items c query true st) as [[|x rest]|e] eqn:Hq.
      * do 8 right; left. by eauto 10.
      * do 9 right; left. by eauto 10.
      * do 7 right; left. by eauto 10.
    + do 10 right.
      by rewrite (main_unsupported _ _ Hp Hg).
Qed.

Ltac main_by_cases req st :=
  let C := fresh "C" in
  pose proof (main_cases req st) as C; cbv zeta in C;
  destruct C as
    [(Hm & Hj & Hr)
    |[(Hm & e & Hj & He & Hr)
    |[(Hm & data & e & Hj & Ha & Hr)
    |[(Hm & data & doc & e & Hj & Ha & Hc & Hr)
    |[(Hm & data & doc & c & e & Hj & Ha & Hc & Hi & Hr)
    |[(Hm & data & doc & c & st' & Hj & Ha & Hc & Hi & Hr)
    |[(Hm & e & Hc & Hr)
    |[(Hm & c & e & Hc & Hq & Hr)
    |[(Hm & c & Hc & Hq & Hr)
    |[(Hm & c & x & rest & Hc & Hq & Hr)
    |(Hp & Hg & Hr)]]]]]]]]]];
  rewrite ?Hr; cbn [fst snd];
  rewrite ?(proj1 (handle_exception_status _)),
          ?(proj2 (handle_exception_status _)).

(** X8. Whatever the request, the environment and the store, the status is
    one of 200, 400, 404, 405 and 500. *)
Theorem status_code_range req (st : S) :
  status_code (main json_dumps environ uuid4 req st).1
  ∈ [200; 400; 404; 405; 500]%Z.
Proof.
  main_by_cases req st.
  all: cbn; rewrite !elem_of_cons; by auto 10.
Qed.

(** X9. The only mimetype the handler ever sets is application/json, and
    it sets it exactly on a GET whose query returned at least one item;
    the body is then the serialization of the first item. *)
Theorem json_only_on_successful_get req (st : S) :
  let r := (main json_dumps environ uuid4 req st).1 in
  (mimetype r = None ∨ mimetype r = Some "application/json") ∧
  (mimetype r = Some "application/json"
   ↔ str_lower (method req) = "get" ∧
     ∃ c x rest,
       container_from_environ environ = Ok c ∧
       query_items c query true st = Ok (x :: rest) ∧
       r = {| body := json_dumps x; status_code := 200;
              mimetype := Some "application/json" |}).
Proof.
  intros r. subst r. split.
  - main_by_cases req st. all: cbn; by auto.
  - split; [|by intros (_ & c & x & rest & _ & _ & ->)].
    main_by_cases req st. all: cbn; try done.
    intros _. split; [done|]. by exists c, x, rest.
Qed.

(** X11. Each client-error status has one cause: 400 is a POST on whose
    body [get_json] raises [ValueError], 404 is a GET whose query returned
    nothing, 405 is a method that is neither POST nor GET. *)
Theorem client_error_causes req (st : S) :
  let r := (main json_dumps environ uuid4 req st).1 in
  (status_code r = 400%Z
   ↔ str_lower (method req) = "post" ∧ get_json req = Raise ValueError) ∧
  (status_code r = 404%Z
   ↔ str_lower (method req) = "get" ∧
     ∃ c, container_from_environ environ = Ok c ∧
          query_items c query true st = Ok []) ∧
  (status_code r = 405%Z
   ↔ str_lower (method req) ≠ "post" ∧ str_lower (method req) ≠ "get").
Proof.
  intros r. subst r. split; [|split]; split.
  - main_by_cases req st. all: cbn; done.
  - intros [Hm Hj]. by rewrite (main_post_unparsable _ _ Hm Hj).
  - main_by_cases req st. all: cbn; try done. by eauto.
  - intros (Hm & c & Hc & Hq).
    by rewrite (main_get _ _ _ _ _ _ Hm Hc), Hq.
  - main_by_cases req st. all: cbn; done.
  - intros [Hp Hg]. by rewrite (main_unsupported _ _ Hp Hg).
Qed.

(** X12. The status is 200 in two cases only: a POST that got through the
    [id] step and the configuration and whose [create_item] returned, and a
    GET whose query returned at least one item. *)
Theorem success_causes req (st : S) :
  status_code (main json_dumps environ uuid4 req st).1 = 200%Z
  ↔ (str_lower (method req) = "post" ∧
     ∃ data doc c st',
       get_json req = Ok data ∧ assign_id uuid4 data = Ok doc ∧
       container_from_environ environ = Ok c ∧
       create_item c doc st = Ok st') ∨
    (str_lower (method req) = "get" ∧
     ∃ c x rest,
       container_from_environ environ = Ok c ∧
       query_items c query true st = Ok (x :: rest)).
Proof.
  split.
  - main_by_cases req st. all: cbn; try done.
    + intros _. left. by eauto 10.
    + intros _. right. by eauto 10.
  - intros [(Hm & data & doc & c & st' & Hj & Ha & Hc & Hi)
           |(Hm & c & x & rest & Hc & Hq)].
    + by rewrite (main_post _ _ _ _ _ _ _ _ Hm Hj Ha Hc), Hi.
    + by rewrite (main_get _ _ _ _ _ _ Hm Hc), Hq.
Qed.

(** X13. Only POST reads the body: two requests with the same method,
    other than POST, are answered alike whatever their bodies, so a GET
    with an unparsable body is still served. *)
Theorem body_read_only_by_post req req' (st : S) :
  str_lower (method req) ≠ "post" →
  method req' = method req →
  main json_dumps environ uuid4 req' st
  = main json_dumps environ uuid4 req st.
Proof.
  intros Hp Hm. unfold main, main_try. rewrite Hm.
  apply String.eqb_neq in Hp. by rewrite Hp.
Qed.

(** X14. Of the environment the handler reads the four configuration
    variables and nothing else: two environments that agree on them give
    the same answer and the same store. *)
Theorem environ_read_only_at_configuration environ' req (st : S) :
  (∀ k, k ∈ ["COSMOS_ENDPOINT"; "COSMOS_KEY"; "COSMOS_DATABASE";
             "COSMOS_CONTAINER"] → environ' !! k = environ !! k) →
  main json_dumps environ' uuid4 req st
  = main json_dumps environ uuid4 req st.
Proof.
  intros Hk.
  assert (container_from_environ environ' = container_from_environ environ)
    as Hc.
  { unfold container_from_environ, environ_getitem.
    rewrite !Hk; [done|set_solver..]. }
  unfold main, main_try. by rewrite Hc.
Qed.


(** X16. A POST whose object has both [uid] and [timestamp], one of them
    not a string, is answered 500 with the generic text and stores
    nothing: the value has no [replace]. *)
Theorem post_non_string_uid_or_timestamp req (st : S) (data : document) u t :
  str_lower (method req) = "post" →
  get_json req = Ok (JObj data) →
  data !! "uid" = Some u →
  data !! "timestamp" = Some t →
  ¬ (∃ s s', u = JStr s ∧ t = JStr s') →
  main json_dumps environ uuid4 req st =
    ({| body := "Error interno del servidor.";
        status_code := 500; mimetype := None |}, st).
Proof.
  intros Hm Hj Hu Ht Hns.
  by rewrite (main_post_raise_id _ _ _ _ _ _ _ Hm Hj
                (assign_id_not_strings uuid4 _ _ _ Hu Ht Hns)).
Qed.

End handler_more.

(** ** POST, then GET, on the list-backed store *)

Lemma lookup_store_container c docs (st : cosmos) :
  lookup_container c (store_container c docs st) = Ok docs.
Proof.
  unfold lookup_container, store_container. cbn [databases].
  rewrite lookup_insert_eq. cbn. by rewrite lookup_insert_eq.
Qed.

Lemma string_ltb_not_leb a b :
  String.ltb a b = true → String.leb b a = false.
Proof.
  unfold String.ltb, String.leb. rewrite (String.compare_antisym a b).
  by destruct (String.compare b a).
Qed.

Lemma cosmos_create_item_ok c body (st st' : cosmos) :
  create_item c body st = Ok st' →
  ∃ docs doc,
    lookup_container c st = Ok docs ∧ body = JObj doc ∧
    st' = store_container c (docs ++ [doc]) st.
Proof.
  cbn [create_item cosmos_store]. unfold cosmos_create_item.
  destruct (lookup_container c st) as [docs|] eqn:Hl; [|done].
  cbn [mbind result_bind]. destruct body as [| | | | | |doc]; try done.
  destruct (doc !! "id") as [[| | | |i| |]|]; try done.
  destruct (existsb (has_id i) docs); [done|].
  intros [= <-]. by exists docs, doc.
Qed.

(** X17. On the list-backed model of the store: when a POST of an object
    with a string [uid] and a string [timestamp] later than every stored
    one is answered with the confirmation, a GET that follows returns that
    object, with the derived [id] and every other field as posted. *)
Theorem post_then_get_returns_posted
    json_dumps environ uuid4 uuid4' req_post req_get
    (st : cosmos) c docs (data : document) uid timestamp :
  str_lower (method req_post) = "post" →
  get_json req_post = Ok (JObj data) →
  str_lower (method req_get) = "get" →
  container_from_environ environ = Ok c →
  lookup_container c st = Ok docs →
  data !! "uid" = Some (JStr uid) →
  data !! "timestamp" = Some (JStr timestamp) →
  Forall (λ d : document,
            ∃ t, d !! "timestamp" = Some (JStr t)
                 ∧ String.ltb t timestamp = true) docs →
  let r := main json_dumps environ uuid4 req_post st in
  r.1 = saved_response →
  let doc :=
    <["id" := JStr (clean_uid uid +:+ "-" +:+ clean_timestamp timestamp
                    +:+ "-" +:+ str_take 8 uuid4)]> data in
  lookup_container c r.2 = Ok (docs ++ [doc]) ∧
  main json_dumps environ uuid4' req_get r.2 =
    ({| body := json_dumps (JObj doc);
        status_code := 200; mimetype := Some "application/json" |}, r.2).
Proof.
  intros Hp Hj Hg Hc Hl Hu Ht Hall r Hr doc. subst r.
  pose proof (assign_id_both uuid4 _ _ _ Hu Ht) as Ha. fold doc in Ha.
  rewrite (main_post _ _ _ _ _ _ _ _ Hp Hj Ha Hc) in Hr |- *.
  destruct (create_item c (JObj doc) st) as [st'|e] eqn:Hi;
    [|by destruct e].
  cbn [fst snd] in *.
  destruct (cosmos_create_item_ok _ _ _ _ Hi) as (docs' & doc' & Hl' & E & ->).
  rewrite Hl in Hl'. injection Hl' as <-. injection E as <-.
  pose proof (lookup_store_container c (docs ++ [doc]) st) as Hl1.
  split; [done|].
  destruct (cosmos_query_non_empty c _ _ Hl1) as (d & Hq & Hd & Hmax).
  { by destruct docs. }
  rewrite (main_get _ _ _ _ _ _ Hg Hc), Hq.
  assert (d = doc) as ->; [|done].
  apply elem_of_app in Hd as [Hd|Hd]; [|by apply list_elem_of_singleton in Hd].
  destruct (proj1 (Forall_forall _ _) Hall d Hd) as (t & Hdt & Hlt).
  assert (doc ∈ docs ++ [doc]) as Hin
    by (apply elem_of_app; right; apply list_elem_of_singleton; done).
  specialize (Hmax doc Hin). unfold order_by in Hmax.
  assert (doc !! "timestamp" = Some (JStr timestamp)) as Hts
    by (unfold doc; by rewrite lookup_insert_ne).
  rewrite Hts, Hdt in Hmax. cbn in Hmax.
  by rewrite (string_ltb_not_leb _ _ Hlt) in Hmax.
Qed.

(** ** Where the UUID is used *)

(** X18. The UUID enters the answer only through a derived or generated
    [id]: a request that is not a POST, a POST on whose body [get_json]
    raises, and a POST of an object that keeps its own [id] are handled
    the same whatever UUID is drawn. *)
Theorem uuid_used_only_for_new_id
    {S : Type} `{!DocumentStore S} json_dumps environ u u' req (st : S) :
  str_lower (method req) ≠ "post" ∨ (∃ e, get_json req = Raise e) ∨
  (∃ (data : document) v,
     get_json req = Ok (JObj data) ∧
     ¬ (is_Some (data !! "uid") ∧ is_Some (data !! "timestamp")) ∧
     data !! "id" = Some v) →
  main json_dumps environ u req st = main json_dumps environ u' req st.
Proof.
  intros [Hp|[[e Hj]|(data & v & Hj & Hn & Hi)]]; unfold main, main_try.
  - apply String.eqb_neq in Hp. by rewrite Hp.
  - by rewrite Hj.
  - by rewrite Hj, !(assign_id_kept _ _ _ Hn Hi).
Qed.

(** ** Where the store is reached *)

(** X10. [create_item] is reached only by a POST whose body parsed, whose
    [id] step returned and whose configuration is complete. A request
    that is not a POST is answered the same by two stores that answer
    queries alike, whatever their [create_item] does; a POST that fails at
    the parser, at the [id] step or at the configuration is answered the
    same by any two stores. In all these runs the store handed in is the
    store handed back. *)
Theorem create_item_reached_only_by_ready_post
    {S : Type} (store store' : DocumentStore S)
    json_dumps environ uuid4 req (st : S) :
  (str_lower (method req) ≠ "post" →
   (∀ c q flag s,
      @query_items S store c q flag s = @query_items S store' c q flag s) →
   @main json_dumps environ uuid4 S store req st
   = @main json_dumps environ uuid4 S store' req st ∧
   (@main json_dumps environ uuid4 S store req st).2 = st) ∧
  (str_lower (method req) = "post" →
   (∃ e, get_json req = Raise e) ∨
   (∃ data e, get_json req = Ok data ∧ assign_id uuid4 data = Raise e) ∨
   (∃ e, container_from_environ environ = Raise e) →
   @main json_dumps environ uuid4 S store req st
   = @main json_dumps environ uuid4 S store' req st ∧
   (@main json_dumps environ uuid4 S store req st).2 = st).
Proof.
  split.
  - intros Hp Hq. unfold main, main_try.
    apply String.eqb_neq in Hp. rewrite Hp.
    destruct (String.eqb (str_lower (method req)) "get"); [|done].
    destruct (container_from_environ environ) as [c|e]; [|done].
    cbn [mbind result_bind]. rewrite Hq.
    by destruct (@query_items S store' c query true st) as [[|x rest]|e].
  - intros Hm Hfail. unfold main, main_try. rewrite Hm.
    cbn [String.eqb Ascii.eqb Bool.eqb].
    destruct (get_json req) as [data|e] eqn:Hj.
    2:{ by destruct e. }
    destruct (assign_id uuid4 data) as [doc|e] eqn:Ha; [|done].
    destruct (container_from_environ environ) as [c|e] eqn:Hc; [|done].
    destruct Hfail as [[e He]|[(data' & e & Hd & He)|[e He]]];
      [done| |done].
    injection Hd as <-. congruence.
Qed.

(** ** The further properties at sample inputs *)

Module MoreWitness.
Import Sample.

Abbreviation serve := (main json_dumps environ uuid4).

Lemma sample_container : container_from_environ environ = Ok container.
Proof. reflexivity. Defined.

Lemma get_is_not_post : str_lower (method get) ≠ "post".
Proof. discriminate. Defined.

Lemma numeric_uid_not_strings :
  ¬ (∃ s s', JInt 7 = JStr s ∧ JStr "2024-01-02 10:15:30.5" = JStr s').
Proof. intros (s & s' & H & _). discriminate H. Defined.

Lemma clean_is_identity_on_clean_witness :
  str_contains "/" "04:A3:1B" = false ∧
  str_contains " " "20240102T101530" = false ∧
  clean_uid "04:A3:1B" = "04:A3:1B" ∧
  clean_timestamp "20240102T101530" = "20240102T101530".
Proof.
  do 2 (split; [reflexivity|]).
  pose proof (clean_is_identity_on_clean "04:A3:1B" "20240102T101530")
    as [Hu Ht].
  split.
  - exact (Hu eq_refl eq_refl eq_refl eq_refl).
  - exact (Ht eq_refl eq_refl eq_refl).
Defined.

Lemma derived_id_length_witness :
  payload !! "uid" = Some (JStr "7C/22#9?") ∧
  payload !! "timestamp" = Some (JStr "2024-01-02 10:15:30.5") ∧
  ∃ i, assign_id uuid4 (JObj payload)
         = Ok (JObj (<["id" := JStr i]> payload)) ∧
       String.length i = 39.
Proof.
  do 2 (split; [reflexivity|]).
  exact (derived_id_length uuid4 payload "7C/22#9?" "2024-01-02 10:15:30.5"
           eq_refl eq_refl).
Defined.

Lemma derived_id_collision_witness :
  payload !! "uid" = Some (JStr "7C/22#9?") ∧
  payload !! "timestamp" = Some (JStr "2024-01-02 10:15:30.5") ∧
  str_take 8 uuid4 = str_take 8 uuid4_same_prefix ∧
  assign_id uuid4 (JObj payload) = assign_id uuid4_same_prefix (JObj payload).
Proof.
  do 3 (split; [reflexivity|]).
  exact (proj2 (derived_id_collision uuid4 uuid4_same_prefix payload
                  "7C/22#9?" "2024-01-02 10:15:30.5" eq_refl eq_refl)
           eq_refl).
Defined.

Lemma assign_id_object_raises_witness :
  numeric_uid !! "uid" = Some (JInt 7) ∧
  numeric_uid !! "timestamp" = Some (JStr "2024-01-02 10:15:30.5") ∧
  assign_id uuid4 (JObj numeric_uid) = Raise AttributeError.
Proof.
  do 2 (split; [reflexivity|]).
  apply (proj2 (assign_id_object_raises uuid4 numeric_uid AttributeError)).
  split; [reflexivity|].
  exists (JInt 7), (JStr "2024-01-02 10:15:30.5").
  split; [reflexivity|]. split; [reflexivity|].
  exact numeric_uid_not_strings.
Defined.

Lemma container_from_environ_cases_witness :
  container_from_environ environ = Ok container ∧
  no_key !! "COSMOS_KEY" = None ∧
  container_from_environ no_key = Raise (KeyError "COSMOS_KEY").
Proof.
  pose proof (container_from_environ_cases environ) as [Hok _].
  pose proof (container_from_environ_cases no_key) as [_ Hraise].
  split; [|split; [reflexivity|]].
  - apply (proj2 (Hok container)).
    exists "https://rfid.documents.azure.com:443/", "c2VjcmV0",
           "paquetes", "lecturas".
    repeat split; reflexivity.
  - apply (proj2 (Hraise (KeyError "COSMOS_KEY"))).
    exists ["COSMOS_ENDPOINT"], "COSMOS_KEY",
           ["COSMOS_DATABASE"; "COSMOS_CONTAINER"].
    split; [reflexivity|]. split; [|split; reflexivity].
    constructor; [|constructor]. eexists. reflexivity.
Defined.

Lemma json_only_on_successful_get_witness :
  str_lower (method get) = "get" ∧
  query_items container query true (account [first]) = Ok [JObj first] ∧
  mimetype (serve get (account [first])).1 = Some "application/json".
Proof.
  do 2 (split; [reflexivity|]).
  pose proof (json_only_on_successful_get json_dumps environ uuid4 get
                (account [first])) as [_ H].
  apply (proj2 H). split; [reflexivity|].
  exists container, (JObj first), [].
  split; [exact sample_container|]. split; reflexivity.
Defined.

Lemma create_item_reached_only_by_ready_post_witness :
  str_lower (method get) ≠ "post" ∧
  @main json_dumps environ uuid4 cosmos cosmos_store get (account [first])
  = @main json_dumps environ uuid4 cosmos read_only_store get
      (account [first]) ∧
  str_lower (method (post (JObj numeric_uid))) = "post" ∧
  assign_id uuid4 (JObj numeric_uid) = Raise AttributeError ∧
  @main json_dumps environ uuid4 cosmos cosmos_store
    (post (JObj numeric_uid)) (account [first])
  = @main json_dumps environ uuid4 cosmos read_only_store
      (post (JObj numeric_uid)) (account [first]).
Proof.
  split; [exact get_is_not_post|].
  pose proof (create_item_reached_only_by_ready_post cosmos_store
                read_only_store json_dumps environ uuid4 get
                (account [first])) as [Hget _].
  pose proof (create_item_reached_only_by_ready_post cosmos_store
                read_only_store json_dumps environ uuid4
                (post (JObj numeric_uid)) (account [first])) as [_ Hpost].
  split; [exact (proj1 (Hget get_is_not_post (λ _ _ _ _, eq_refl)))|].
  do 2 (split; [reflexivity|]).
  refine (proj1 (Hpost eq_refl _)).
  right. left. exists (JObj numeric_uid), AttributeError.
  split; reflexivity.
Defined.

Lemma client_error_causes_witness :
  str_lower (method unparsable) = "post" ∧
  get_json unparsable = Raise ValueError ∧
  status_code (serve unparsable (account [first])).1 = 400%Z.
Proof.
  do 2 (split; [reflexivity|]).
  pose proof (client_error_causes json_dumps environ uuid4 unparsable
                (account [first])) as [H _].
  exact (proj2 H (conj eq_refl eq_refl)).
Defined.

Lemma success_causes_witness :
  str_lower (method get) = "get" ∧
  query_items container query true (account [first]) = Ok [JObj first] ∧
  status_code (serve get (account [first])).1 = 200%Z.
Proof.
  do 2 (split; [reflexivity|]).
  apply (proj2 (success_causes json_dumps environ uuid4 get
                  (account [first]))).
  right. split; [reflexivity|].
  exists container, (JObj first), [].
  split; [exact sample_container|reflexivity].
Defined.

Lemma body_read_only_by_post_witness :
  str_lower (method get) ≠ "post" ∧
  method get_with_body = method get ∧
  serve get_with_body (account [first]) = serve get (account [first]).
Proof.
  split; [exact get_is_not_post|]. split; [reflexivity|].
  exact (body_read_only_by_post json_dumps environ uuid4 get get_with_body
           (account [first]) get_is_not_post eq_refl).
Defined.

Lemma environ_agrees :
  ∀ k, k ∈ ["COSMOS_ENDPOINT"; "COSMOS_KEY"; "COSMOS_DATABASE";
            "COSMOS_CONTAINER"] →
       environ_with_path !! k = environ !! k.
Proof.
  intros k Hk.
  repeat (apply elem_of_cons in Hk as [-> | Hk]; [reflexivity|]).
  by apply elem_of_nil in Hk.
Defined.

Lemma environ_read_only_at_configuration_witness :
  (∀ k, k ∈ ["COSMOS_ENDPOINT"; "COSMOS_KEY"; "COSMOS_DATABASE";
             "COSMOS_CONTAINER"] →
        environ_with_path !! k = environ !! k) ∧
  main json_dumps environ_with_path uuid4 get (account [first])
  = serve get (account [first]).
Proof.
  split; [exact environ_agrees|].
  exact (environ_read_only_at_configuration json_dumps environ uuid4
           environ_with_path get (account [first]) environ_agrees).
Defined.



Lemma post_non_string_uid_or_timestamp_witness :
  str_lower (method (post (JObj numeric_uid))) = "post" ∧
  numeric_uid !! "uid" = Some (JInt 7) ∧
  numeric_uid !! "timestamp" = Some (JStr "2024-01-02 10:15:30.5") ∧
  serve (post (JObj numeric_uid)) (account [first])
  = (internal_error_response, account [first]).
Proof.
  do 3 (split; [reflexivity|]).
  exact (post_non_string_uid_or_timestamp json_dumps environ uuid4
           (post (JObj numeric_uid)) (account [first]) numeric_uid
           (JInt 7) (JStr "2024-01-02 10:15:30.5")
           eq_refl eq_refl eq_refl eq_refl numeric_uid_not_strings).
Defined.

Lemma first_is_earlier :
  Forall (λ d : document,
            ∃ t, d !! "timestamp" = Some (JStr t)
                 ∧ String.ltb t "2024-01-02 10:15:30.5" = true) [first].
Proof. constructor; [|constructor]. eexists. split; reflexivity. Defined.

Lemma post_payload_saved :
  (serve (post (JObj payload)) (account [first])).1 = saved_response.
Proof. vm_compute. reflexivity. Defined.

Lemma post_then_get_returns_posted_witness :
  lookup_container container (account [first]) = Ok [first] ∧
  (serve (post (JObj payload)) (account [first])).1 = saved_response ∧
  main json_dumps environ uuid4_same_prefix get
    (serve (post (JObj payload)) (account [first])).2
  = ({| body := json_dumps (JObj stored_payload);
        status_code := 200; mimetype := Some "application/json" |},
     (serve (post (JObj payload)) (account [first])).2).
Proof.
  split; [reflexivity|]. split; [exact post_payload_saved|].
  pose proof (post_then_get_returns_posted json_dumps environ uuid4
                uuid4_same_prefix (post (JObj payload)) get
                (account [first]) container [first] payload
                "7C/22#9?" "2024-01-02 10:15:30.5"
                eq_refl eq_refl eq_refl sample_container eq_refl
                eq_refl eq_refl first_is_earlier post_payload_saved)
    as [_ H].
  exact H.
Defined.

Lemma uuid_used_only_for_new_id_witness :
  get_json (post (JObj labelled)) = Ok (JObj labelled) ∧
  labelled !! "id" = Some (JStr "manual-1") ∧
  serve (post (JObj labelled)) (account [first])
  = main json_dumps environ uuid4_same_prefix (post (JObj labelled))
      (account [first]).
Proof.
  do 2 (split; [reflexivity|]).
  apply (uuid_used_only_for_new_id json_dumps environ uuid4
           uuid4_same_prefix (post (JObj labelled)) (account [first])).
  right. right. exists labelled, (JStr "manual-1").
  split; [reflexivity|]. split; [|reflexivity].
  intros [_ [v Hv]]. discriminate Hv.
Defined.

End MoreWitness.
